(** * LoadSingleImage.upgrade_settings: the settings-migration chain of
    [src/cellprofiler/modules/loadsingleimage.py], embedded in Rocq.

    A pipeline file hands [upgrade_settings] a Python list of strings (the
    settings record).  The rewrites build new lists by slicing and
    concatenation, except the one write [setting_values[SLOT_DIR] = ...]
    (line 441), which goes into whatever list [setting_values] names at that
    point: possibly the caller's own list.  The embedding therefore keeps the
    caller's list as the state of a small state-and-error monad and tracks
    whether [setting_values] still names it. *)

#[local] Set Warnings "-register-all".
From Stdlib Require Import String Ascii List ZArith Lia Bool.
Import ListNotations.
Open Scope string_scope.
Open Scope list_scope.

(** ** Python values and exceptions *)

(** A list element: a string, or a tuple (Python 2's [zip] builds tuples). *)
Inductive value : Type :=
| VStr (s : string)
| VTuple (items : list value).

(** The exceptions the migration can raise.  [TypeError] also stands for the
    [AttributeError] of calling a string method on a tuple. *)
Inductive exn : Type :=
| IndexError
| TypeError
| MalformedDescriptor.

Inductive result (A : Type) : Type :=
| Ok (a : A)
| Err (e : exn).
Arguments Ok {A} a.
Arguments Err {A} e.

Definition rbind {A B} (r : result A) (f : A -> result B) : result B :=
  match r with Ok a => f a | Err e => Err e end.

Notation "x <-? r ;; k" := (rbind r (fun x => k))
  (at level 61, r at next level, right associativity).

Fixpoint map_result {A B} (f : A -> result B) (l : list A) : result (list B) :=
  match l with
  | [] => Ok []
  | x :: t => y <-? f x ;; ys <-? map_result f t ;; Ok (y :: ys)
  end.

(** ** Python list and string primitives *)

(** [l[i]] *)
Definition py_index {A} (l : list A) (i : nat) : result A :=
  match nth_error l i with Some x => Ok x | None => Err IndexError end.

(** [l[i] = x] *)
Definition py_setitem {A} (l : list A) (i : nat) (x : A) : result (list A) :=
  if Nat.ltb i (length l) then Ok (firstn i l ++ x :: skipn (S i) l)
  else Err IndexError.

(** [l[i:j]] for [0 <= i] *)
Definition py_slice {A} (l : list A) (i j : nat) : list A :=
  firstn (j - i) (skipn i l).

(** [del l[i:j]] *)
Definition py_delslice {A} (l : list A) (i j : nat) : list A :=
  firstn i l ++ skipn j l.

(** [l[::2]]; [l[k::2]] is [every_other (skipn k l)]. *)
Fixpoint every_other {A} (l : list A) : list A :=
  match l with
  | [] => []
  | [x] => [x]
  | x :: _ :: t => x :: every_other t
  end.

Fixpoint range_aux (n start step : nat) : list nat :=
  match n with
  | O => []
  | S n' => start :: range_aux n' (start + step) step
  end.

(** [range(start, stop, step)] for [step > 0] *)
Definition py_range (start stop step : nat) : list nat :=
  range_aux ((stop - start + step - 1) / step) start step.

(** [v == s] for a string literal [s]: a tuple is never equal to it. *)
Definition veq (v : value) (s : string) : bool :=
  match v with VStr t => String.eqb t s | VTuple _ => false end.

(** A value used where the code needs a [str]. *)
Definition as_str (v : value) : result string :=
  match v with VStr s => Ok s | VTuple _ => Err TypeError end.

(** [v[0]] on a string or a tuple *)
Definition py_getitem0 (v : value) : result value :=
  match v with
  | VStr (String c _) => Ok (VStr (String c EmptyString))
  | VStr EmptyString => Err IndexError
  | VTuple (x :: _) => Ok x
  | VTuple [] => Err IndexError
  end.

(** [s[1:]] on a string *)
Definition str_from1 (s : string) : string :=
  match s with EmptyString => EmptyString | String _ t => t end.

(** [s.startswith(p)] *)
Definition startswith (s p : string) : bool := String.prefix p s.

(** ** Constants *)

(** Defined in loadsingleimage.py *)
Definition DIR_CUSTOM_FOLDER := "Custom folder".
Definition DIR_CUSTOM_WITH_METADATA := "Custom with metadata".
Definition S_FILE_SETTINGS_COUNT_V4 := 3%nat.
Definition S_FILE_SETTINGS_COUNT_V5 := 5%nat.

(** Modelled from the spec: the folder-choice tag literals and sentinels of
    [cellprofiler.settings] and [loadimages] (not among the repository's
    files): the six folder-choice tags of the location descriptor, the
    "unused" entry sentinel [cps.DO_NOT_USE], the "yes" value [cps.YES] and
    the image variant [IO_IMAGES] of the image-or-objects choice. *)
Definition DEFAULT_INPUT_FOLDER_NAME := "Default Input Folder".
Definition DEFAULT_OUTPUT_FOLDER_NAME := "Default Output Folder".
Definition ABSOLUTE_FOLDER_NAME := "Elsewhere...".
Definition DEFAULT_INPUT_SUBFOLDER_NAME := "Default Input Folder sub-folder".
Definition DEFAULT_OUTPUT_SUBFOLDER_NAME := "Default Output Folder sub-folder".
Definition URL_FOLDER_NAME := "URL".
Definition DO_NOT_USE := "Do not use".
Definition YES := "Yes".
Definition IO_IMAGES := "Images".

Definition folder_tags : list string :=
  [DEFAULT_INPUT_FOLDER_NAME; DEFAULT_OUTPUT_FOLDER_NAME; ABSOLUTE_FOLDER_NAME;
   DEFAULT_INPUT_SUBFOLDER_NAME; DEFAULT_OUTPUT_SUBFOLDER_NAME; URL_FOLDER_NAME].

(** ** Location descriptor codec *)

(** Modelled from the spec: [cps.DirectoryPath]'s wire encoding (not among
    the repository's files).  A descriptor is "tag|path"; decoding splits at
    the first delimiter and fails with [MalformedDescriptor] when there is no
    delimiter or the tag is not one of the folder-choice tags. *)
Fixpoint split_at_bar (s : string) : option (string * string) :=
  match s with
  | EmptyString => None
  | String c t =>
      if Ascii.eqb c "|"%char then Some (EmptyString, t)
      else match split_at_bar t with
           | Some (a, b) => Some (String c a, b)
           | None => None
           end
  end.

(** Modelled from the spec: [DirectoryPath.static_join_string] (encode). *)
Definition static_join_string (dir_choice custom_path : string) : string :=
  (dir_choice ++ "|" ++ custom_path)%string.

(** Modelled from the spec: [DirectoryPath.split_string] (decode). *)
Definition split_string (s : string) : result (string * string) :=
  match split_at_bar s with
  | Some (tag, path) =>
      if existsb (String.eqb tag) folder_tags then Ok (tag, path)
      else Err MalformedDescriptor
  | None => Err MalformedDescriptor
  end.

(** Modelled from the spec: the deprecated "default image folder" spellings
    and their current tags. *)
Definition standardize_tag (tag : string) : string :=
  if String.eqb tag "Default Image Folder" then DEFAULT_INPUT_FOLDER_NAME
  else if String.eqb tag "Default Image Directory" then DEFAULT_INPUT_FOLDER_NAME
  else if String.eqb tag "Default Output Directory" then DEFAULT_OUTPUT_FOLDER_NAME
  else tag.

(** Modelled from the spec: [DirectoryPath.upgrade_setting]
    (upgrade_legacy_tag): the tag is standardized, the custom path kept; a
    string without a delimiter is left as it is. *)
Definition upgrade_setting (s : string) : string :=
  match split_at_bar s with
  | Some (tag, path) => static_join_string (standardize_tag tag) path
  | None => s
  end.

(** ** The rewrite rules of [upgrade_settings] *)

(** Lines 397-405: copy the list, then overwrite its first field (blank in
    Matlab) with the folder choice read off the second field. *)
Definition legacy_dir_choice (setting_values : list value) : result (list value) :=
  let new_setting_values := setting_values in
  s1 <-? py_index setting_values 1 ;;
  let choice :=
    if veq s1 "." then DEFAULT_INPUT_FOLDER_NAME
    else if veq s1 "&" then DEFAULT_OUTPUT_FOLDER_NAME
    else DIR_CUSTOM_FOLDER in
  py_setitem new_setting_values 0 (VStr choice).

(** Lines 410-411, one pass of the loop:
    [if new_setting_values[i+1] == cps.DO_NOT_USE: del new_setting_values[i:i+2]] *)
Definition remove_do_not_use (new_setting_values : list value) (i : nat)
  : result (list value) :=
  x <-? py_index new_setting_values (i + 1) ;;
  Ok (if veq x DO_NOT_USE then py_delslice new_setting_values i (i + 2)
      else new_setting_values).

(** Lines 409-411: [for i in [8, 6, 4]] *)
Definition legacy_remove_unused (new_setting_values : list value)
  : result (list value) :=
  fold_left (fun acc i => l <-? acc ;; remove_do_not_use l i) [8; 6; 4]%nat
    (Ok new_setting_values).

(** Lines 396-414: the Matlab (legacy) rewrite to revision 1. *)
Definition rewrite_legacy (setting_values : list value) : result (list value) :=
  new_setting_values <-? legacy_dir_choice setting_values ;;
  legacy_remove_unused new_setting_values.

(** Lines 419-436: revision 1 to 2. *)
Definition rewrite_1_2 (setting_values : list value) : result (list value) :=
  v0 <-? py_index setting_values 0 ;;
  s0 <-? as_str v0 ;;   (* setting_values[0].startswith(...) *)
  choice_dir <-?
    (if startswith s0 "Default image" then
       custom_directory <-? py_index setting_values 1 ;;
       Ok (DEFAULT_INPUT_FOLDER_NAME, custom_directory)
     else if veq v0 DIR_CUSTOM_FOLDER || veq v0 DIR_CUSTOM_WITH_METADATA then
       custom_directory <-? py_index setting_values 1 ;;
       c0 <-? py_getitem0 custom_directory ;;
       if veq c0 "." then Ok (DEFAULT_INPUT_SUBFOLDER_NAME, custom_directory)
       else if veq c0 "&" then
         cd <-? as_str custom_directory ;;
         Ok (DEFAULT_OUTPUT_SUBFOLDER_NAME, VStr ("." ++ str_from1 cd)%string)
       else Ok (ABSOLUTE_FOLDER_NAME, custom_directory)
     else
       custom_directory <-? py_index setting_values 1 ;;
       Ok (s0, custom_directory)) ;;
  let (dir_choice, custom_directory) := choice_dir in
  cd <-? as_str custom_directory ;;
  let directory := static_join_string dir_choice cd in
  Ok (VStr directory :: skipn 2 setting_values).

(** Lines 446-453: revision 2 to 3. *)
Definition rewrite_2_3 (setting_values : list value) : result (list value) :=
  v0 <-? py_index setting_values 0 ;;
  dir <-? as_str v0 ;;
  dc <-? split_string dir ;;
  let (dir_choice, custom_dir) := dc in
  if String.eqb dir_choice URL_FOLDER_NAME then
    let dir := static_join_string dir_choice "" in
    let filenames := every_other (skipn 1 setting_values) in
    let imagenames := every_other (skipn 2 setting_values) in
    absorbed <-? map_result
                  (fun filename => f <-? as_str filename ;;
                                   Ok (VStr (custom_dir ++ "/" ++ f)%string))
                  filenames ;;
    (* Python 2: [[dir] + zip(...)], a list of pairs *)
    Ok (VStr dir :: map (fun '(f, n) => VTuple [f; n]) (combine absorbed imagenames))
  else Ok setting_values.

(** Lines 458-461: revision 3 to 4. *)
Definition rewrite_3_4 (setting_values : list value) : list value :=
  py_slice setting_values 0 1 ++
  flat_map (fun i => py_slice setting_values i (i + 2) ++ [VStr YES])
           (py_range 1 (length setting_values) 2).

(** Lines 466-472: revision 4 to 5.  The loop index [i] is below
    [len(setting_values)], so [setting_values[i]] never takes the default. *)
Definition rewrite_4_5 (setting_values : list value) : list value :=
  py_slice setting_values 0 1 ++
  flat_map (fun i => [nth i setting_values (VStr "")] ++
                     [VStr IO_IMAGES] ++
                     py_slice setting_values (i + 1) (i + S_FILE_SETTINGS_COUNT_V4) ++
                     [VStr "Nuclei"])
           (py_range 1 (length setting_values) S_FILE_SETTINGS_COUNT_V4).

(** ** The caller's list as state *)

(** A computation that may read and write the caller's list and may raise. *)
Definition M (A : Type) : Type := list value -> result A * list value.

Definition mret {A} (a : A) : M A := fun h => (Ok a, h).

Definition mbind {A B} (m : M A) (f : A -> M B) : M B :=
  fun h => match m h with
           | (Ok a, h') => f a h'
           | (Err e, h') => (Err e, h')
           end.

Definition lift {A} (r : result A) : M A := fun h => (r, h).

Notation "x <- m ;; k" := (mbind m (fun x => k))
  (at level 61, m at next level, right associativity).

(** What the local name [setting_values] refers to: the caller's list, or a
    list the function built itself. *)
Inductive binding : Type :=
| Caller
| Fresh (l : list value).

Definition deref (b : binding) : M (list value) :=
  fun h => (Ok (match b with Caller => h | Fresh l => l end), h).

(** [setting_values[i] = x]: a write into the caller's list when
    [setting_values] still names it. *)
Definition assign_item (b : binding) (i : nat) (x : value) : M binding :=
  fun h => match b with
           | Caller => match py_setitem h i x with
                       | Ok h' => (Ok Caller, h')
                       | Err e => (Err e, h)
                       end
           | Fresh l => match py_setitem l i x with
                        | Ok l' => (Ok (Fresh l'), h)
                        | Err e => (Err e, h)
                        end
           end.

Definition SLOT_DIR := 0%nat.

(** Lines 396-414: the Matlab (legacy) block. *)
Definition step_legacy (variable_revision_number : Z) (from_matlab : bool)
  : M (binding * Z * bool) :=
  if from_matlab && (variable_revision_number =? 4)%Z then
    setting_values <- deref Caller ;;
    new_setting_values <- lift (rewrite_legacy setting_values) ;;
    mret (Fresh new_setting_values, 1%Z, false)
  else mret (Caller, variable_revision_number, from_matlab).

(** Lines 418-437 *)
Definition step_1_2 (b : binding) (rev : Z) (from_matlab : bool) : M (binding * Z) :=
  if (rev =? 1)%Z && negb from_matlab then
    setting_values <- deref b ;;
    l <- lift (rewrite_1_2 setting_values) ;;
    mret (Fresh l, 2%Z)
  else mret (b, rev).

(** Lines 440-442: [setting_values[SLOT_DIR] = upgrade_setting(...)], in place. *)
Definition standardize_dir (b : binding) : M binding :=
  setting_values <- deref b ;;
  d <- lift (v <-? py_index setting_values SLOT_DIR ;; as_str v) ;;
  assign_item b SLOT_DIR (VStr (upgrade_setting d)).

(** Lines 445-454 *)
Definition step_2_3 (setting_values : list value) (rev : Z) (from_matlab : bool)
  : result (list value * Z) :=
  if (rev =? 2)%Z && negb from_matlab then
    l <-? rewrite_2_3 setting_values ;; Ok (l, 3%Z)
  else Ok (setting_values, rev).

(** Lines 456-462 *)
Definition step_3_4 (setting_values : list value) (rev : Z) (from_matlab : bool)
  : list value * Z :=
  if (rev =? 3)%Z && negb from_matlab then (rewrite_3_4 setting_values, 4%Z)
  else (setting_values, rev).

(** Lines 464-473 *)
Definition step_4_5 (setting_values : list value) (rev : Z) (from_matlab : bool)
  : list value * Z :=
  if (rev =? 4)%Z && negb from_matlab then (rewrite_4_5 setting_values, 5%Z)
  else (setting_values, rev).

(** [LoadSingleImage.upgrade_settings(setting_values, variable_revision_number,
    module_name, from_matlab)], run on the caller's list [setting_values].
    Returns the new settings, revision and Matlab flag (line 475). *)
Definition upgrade_settings (variable_revision_number : Z) (from_matlab : bool)
  : M (list value * Z * bool) :=
  st <- step_legacy variable_revision_number from_matlab ;;
  let '(b, rev, fm) := st in
  st <- step_1_2 b rev fm ;;
  let '(b, rev) := st in
  b <- standardize_dir b ;;
  setting_values <- deref b ;;
  st <- lift (step_2_3 setting_values rev fm) ;;
  let '(setting_values, rev) := st in
  let '(setting_values, rev) := step_3_4 setting_values rev fm in
  let '(setting_values, rev) := step_4_5 setting_values rev fm in
  mret (setting_values, rev, fm).

(** The migrated record, or the exception raised. *)
Definition migrate (setting_values : list value) (rev : Z) (from_matlab : bool)
  : result (list value) :=
  match fst (upgrade_settings rev from_matlab setting_values) with
  | Ok (sv, _, _) => Ok sv
  | Err e => Err e
  end.

(** The caller's list after the call. *)
Definition caller_after (setting_values : list value) (rev : Z) (from_matlab : bool)
  : list value :=
  snd (upgrade_settings rev from_matlab setting_values).

(** A settings record as a pipeline file gives it: a list of strings. *)
Definition strs (l : list string) : list value := map VStr l.

Definition all_str (l : list value) : bool :=
  forallb (fun v => match v with VStr _ => true | VTuple _ => false end) l.

(** Helpers for the statements. *)

(** The part of a directory field before its first delimiter. *)
Definition hd_tag (s : string) : string :=
  match split_at_bar s with Some (t, _) => t | None => s end.

(** Fixed prefix length and entry width of a native record, per revision. *)
Definition prefix_len (rev : Z) : nat := if (rev =? 1)%Z then 2 else 1.
Definition entry_width (rev : Z) : nat :=
  if (rev =? 4)%Z then 3 else if (rev =? 5)%Z then 5 else 2.

(** An entry of a legacy record, kept unless its image name is the
    do-not-use sentinel. *)
Definition keep_entry (f n : string) : list string :=
  if String.eqb n DO_NOT_USE then [] else [f; n].

(** The fields of a width-2 and of a width-3 entry. *)
Definition pair_fields (e : value * value) : list value :=
  let '(a, b) := e in [a; b].
Definition triple_fields (e : value * value * value) : list value :=
  let '(a, b, c) := e in [a; b; c].

(** The list [setting_values] names. *)
Definition contents (b : binding) (h : list value) : list value :=
  match b with Caller => h | Fresh l => l end.

(** The first field is a string that [upgrade_setting] leaves as it is. *)
Definition head_ok (l : list value) : Prop :=
  exists d t, l = VStr d :: t /\ upgrade_setting d = d.

(** The (revision, from_matlab) pairs that select one of the rewrites. *)
Definition has_rewrite (rev : Z) (from_matlab : bool) : bool :=
  if from_matlab then (rev =? 4)%Z else ((1 <=? rev) && (rev <=? 4))%Z.

(** ** The module's settings groups *)

(** Lines 62-63 *)
Definition FILE_TEXT := "Filename of the image to load (Include the extension, e.g., .tif)".
Definition URL_TEXT := "URL of the image to load (Include the extension, e.g., .tif)".

(** One settings group made by [add_file] (lines 96-180): the values of its
    five settings, the label and browsable flag of its file-name setting, and
    whether it was made removable (with a divider and a remove button). *)
Record file_group : Type := mk_file_group {
  can_remove : bool;
  file_name : string;
  file_name_text : string;
  file_name_browsable : bool;
  image_object_choice : string;
  image_name : string;
  rescale : bool;
  object_name : string }.

(** The state of a [LoadSingleImage] object that its methods read and write:
    the folder choice of [self.directory] and [self.file_settings]. *)
Record load_single_image : Type := mk_load_single_image {
  dir_choice : string;
  file_settings : list file_group }.

(** A setting object of the module, by identity: [self.directory], one of the
    five settings of the [i]-th group of [self.file_settings], or
    [self.add_button]. *)
Inductive setting_ref : Type :=
| RDirectory
| RFileName (i : nat)
| RImageObjectChoice (i : nat)
| RImageName (i : nat)
| RRescale (i : nat)
| RObjectName (i : nat)
| RAddButton.

(** [del l[start:]], with Python's reading of a negative [start]. *)
Definition py_del_from {A} (l : list A) (start : Z) : list A :=
  let n := Z.of_nat (length l) in
  let s := if (start <? 0)%Z then Z.max 0 (n + start) else Z.min start n in
  firstn (Z.to_nat s) l.

Section Adding_files.

(** Initial values set by classes outside this file: the value of a new
    [cps.Choice('...', IO_ALL)] (the first of [loadimages.IO_ALL]) and the
    browsable flag of a new [cps.FilenameText]. *)
Variable choice_default : string.
Variable browsable_default : bool.

(** Lines 98-179: the group [add_file(can_remove)] builds. *)
Definition new_file_group (removable : bool) : file_group :=
  {| can_remove := removable;
     file_name := "None";
     file_name_text := FILE_TEXT;
     file_name_browsable := browsable_default;
     image_object_choice := choice_default;
     image_name := "OrigBlue";
     rescale := true;
     object_name := "Nuclei" |}.

(** Lines 96-180: [self.add_file(can_remove)]. *)
Definition add_file (removable : bool) (self : load_single_image) : load_single_image :=
  {| dir_choice := dir_choice self;
     file_settings := file_settings self ++ [new_file_group removable] |}.

(** Lines 223-224: [while len(self.file_settings) < count: self.add_file()].
    Every pass adds one group, so [count] passes are enough for the loop to
    stop on its own test. *)
Fixpoint add_files_while (fuel : nat) (count : Z) (self : load_single_image)
  : load_single_image :=
  match fuel with
  | O => self
  | S fuel' =>
      if (Z.of_nat (length (file_settings self)) <? count)%Z
      then add_files_while fuel' count (add_file true self)
      else self
  end.

(** Lines 219-224: [prepare_settings(setting_values)]; Python 2's [/] on
    ints rounds toward minus infinity, as [Z.div] does. *)
Definition prepare_settings (setting_values : list value) (self : load_single_image)
  : load_single_image :=
  let count := ((Z.of_nat (length setting_values) - 1)
                / Z.of_nat S_FILE_SETTINGS_COUNT_V5)%Z in
  let self := {| dir_choice := dir_choice self;
                 file_settings := py_del_from (file_settings self) count |} in
  add_files_while (Z.to_nat count) count self.

End Adding_files.

(** Lines 189-193: the settings of the [i]-th group, in file order. *)
Definition group_settings (i : nat) : list setting_ref :=
  [RFileName i; RImageObjectChoice i; RImageName i; RRescale i; RObjectName i].

(** Lines 187-188: the label and browse button [settings()] gives a file
    name. *)
Definition label_file_name (url_based : bool) (g : file_group) : file_group :=
  {| can_remove := can_remove g;
     file_name := file_name g;
     file_name_text := if url_based then URL_TEXT else FILE_TEXT;
     file_name_browsable := negb url_based;
     image_object_choice := image_object_choice g;
     image_name := image_name g;
     rescale := rescale g;
     object_name := object_name g |}.

(** Lines 185-193: [for file_setting in self.file_settings: ...], the
    [i]-th group onwards. *)
Fixpoint settings_loop (i : nat) (dc : string) (gs : list file_group)
  : list setting_ref * list file_group :=
  match gs with
  | [] => ([], [])
  | g :: gs' =>
      let url_based := String.eqb dc URL_FOLDER_NAME in
      let g' := label_file_name url_based g in
      let '(rs, gs'') := settings_loop (S i) dc gs' in
      (group_settings i ++ rs, g' :: gs'')
  end.

(** Lines 182-194: [settings()], the settings in the order of a pipeline
    file, and the module with its file names relabelled on the way. *)
Definition settings (self : load_single_image) : list setting_ref * load_single_image :=
  let '(rs, gs) := settings_loop 0 (dir_choice self) (file_settings self) in
  (RDirectory :: rs, {| dir_choice := dir_choice self; file_settings := gs |}).

(** Lines 196-204: [help_settings()]; [self.file_settings[0]] raises on a
    module without groups. *)
Definition help_settings (self : load_single_image) : result (list setting_ref) :=
  image_group <-? py_index (file_settings self) 0 ;;
  Ok [RDirectory; RFileName 0; RImageObjectChoice 0; RImageName 0; RRescale 0;
      RObjectName 0].

(** Lines 271-273: the comparison is on the value of the choice setting. *)
Definition file_wants_images (file_setting : file_group) : bool :=
  String.eqb (image_object_choice file_setting) IO_IMAGES.

(** Lines 208-215, the [i]-th group onwards. *)
Fixpoint visible_loop (i : nat) (gs : list file_group) : list setting_ref :=
  match gs with
  | [] => []
  | g :: gs' =>
      [RFileName i; RImageObjectChoice i] ++
      (if file_wants_images g then [RImageName i; RRescale i] else [RObjectName i]) ++
      visible_loop (S i) gs'
  end.

(** Lines 206-217: [visible_settings()]. *)
Definition visible_settings (self : load_single_image) : list setting_ref :=
  RDirectory :: visible_loop 0 (file_settings self) ++ [RAddButton].

(** Lines 263-268: [get_file_settings(image_name)], the first group whose
    image-name setting has that value, or [None]. *)
Definition get_file_settings (self : load_single_image) (name : string)
  : option file_group :=
  find (fun file_setting => String.eqb (image_name file_setting) name)
       (file_settings self).

(** A Python dict with string keys, as an association list: [d[k] = v]
    replaces the value of a key already present and adds a new key otherwise. *)
Fixpoint dict_set (d : list (string * string)) (k v : string) : list (string * string) :=
  match d with
  | [] => [(k, v)]
  | (k', v') :: d' => if String.eqb k' k then (k, v) :: d' else (k', v') :: dict_set d' k v
  end.

(** [d.get(k)] *)
Fixpoint dict_get (d : list (string * string)) (k : string) : option string :=
  match d with
  | [] => None
  | (k', v') :: d' => if String.eqb k' k then Some v' else dict_get d' k
  end.

(** Lines 248-261: [get_file_names(workspace)], with
    [workspace.measurements.apply_metadata] as [apply_metadata]. *)
Definition get_file_names (apply_metadata : string -> string) (self : load_single_image)
  : list (string * string) :=
  fold_left (fun result file_setting =>
               dict_set result (image_name file_setting)
                        (apply_metadata (file_name file_setting)))
            (file_settings self) [].

(** [s.split(sep, 1)], as the part before and the part after the first [sep]. *)
Fixpoint split_first (sep : ascii) (s : string) : option (string * string) :=
  match s with
  | EmptyString => None
  | String c t =>
      if Ascii.eqb c sep then Some (EmptyString, t)
      else match split_first sep t with
           | Some (a, b) => Some (String c a, b)
           | None => None
           end
  end.

(** [s.split(sep)[0]] *)
Definition split_head (sep : ascii) (s : string) : string :=
  match split_first sep s with Some (a, _) => a | None => s end.

(** [s.split(sep, 1)[1]] *)
Definition split_tail (sep : ascii) (s : string) : result string :=
  match split_first sep s with Some (_, b) => Ok b | None => Err IndexError end.

(** ["_".join((a, b))] *)
Definition join_us (a b : string) : string := (a ++ "_" ++ b)%string.

Section Measurements.

(** Names defined outside this file: [cpmeas.IMAGE]; the object variant
    [IO_OBJECTS] of the image-or-objects choice; the measurement categories
    of [loadimages] and [identify] and the features of [identify]; the column
    types of [cellprofiler.measurements] ([COLTYPE_VARCHAR_MD5] is
    [cpmeas.COLTYPE_VARCHAR_FORMAT%32]); and [I.get_object_measurement_columns]. *)
Variables IMAGE IO_OBJECTS : string.
Variables C_FILE_NAME C_PATH_NAME C_MD5_DIGEST C_SCALING
          C_OBJECTS_FILE_NAME C_OBJECTS_PATH_NAME C_COUNT C_NUMBER C_LOCATION : string.
Variables FTR_OBJECT_NUMBER FTR_CENTER_X FTR_CENTER_Y : string.
Variables COLTYPE_VARCHAR_MD5 COLTYPE_FLOAT COLTYPE_VARCHAR_FILE_NAME
          COLTYPE_VARCHAR_PATH_NAME : string.
Variable get_object_measurement_columns : string -> list (string * string * string).

(** Lines 327-344, one group. *)
Definition group_columns (file_setting : file_group) : list (string * string * string) :=
  if negb (file_wants_images file_setting) then
    let name := object_name file_setting in
    get_object_measurement_columns name ++
    [(IMAGE, join_us C_OBJECTS_FILE_NAME name, COLTYPE_VARCHAR_FILE_NAME);
     (IMAGE, join_us C_OBJECTS_PATH_NAME name, COLTYPE_VARCHAR_PATH_NAME)]
  else
    let name := image_name file_setting in
    [(IMAGE, join_us C_MD5_DIGEST name, COLTYPE_VARCHAR_MD5);
     (IMAGE, join_us C_SCALING name, COLTYPE_FLOAT);
     (IMAGE, join_us C_FILE_NAME name, COLTYPE_VARCHAR_FILE_NAME);
     (IMAGE, join_us C_PATH_NAME name, COLTYPE_VARCHAR_PATH_NAME)].

(** Lines 324-346: [get_measurement_columns(pipeline)]. *)
Definition get_measurement_columns (self : load_single_image)
  : list (string * string * string) :=
  flat_map group_columns (file_settings self).

(** Lines 370-371: the object names of the groups that load objects. *)
Definition object_names (self : load_single_image) : list string :=
  map object_name
      (filter (fun file_setting => String.eqb (image_object_choice file_setting) IO_OBJECTS)
              (file_settings self)).

(** Lines 363-385: [get_measurements(pipeline, object_name, category)]. *)
Definition get_measurements (self : load_single_image) (oname category : string)
  : result (list string) :=
  let names := object_names self in
  if String.eqb oname IMAGE then
    if String.eqb category C_COUNT then Ok names
    else map_result (fun c => split_tail "_" (snd (fst c)))
                    (filter (fun c => String.eqb (split_head "_" (snd (fst c))) category)
                            (get_measurement_columns self))
  else if existsb (String.eqb oname) names then
    Ok (if String.eqb category C_NUMBER then [FTR_OBJECT_NUMBER]
        else if String.eqb category C_LOCATION then [FTR_CENTER_X; FTR_CENTER_Y]
        else [])
  else Ok [].

(** Lines 348-361: [get_categories(pipeline, object_name)]. *)
Definition get_categories (self : load_single_image) (oname : string) : list string :=
  let names := object_names self in
  let has_image_name :=
    existsb (fun file_setting => String.eqb (image_object_choice file_setting) IO_IMAGES)
            (file_settings self) in
  if String.eqb oname IMAGE then
    (if has_image_name then [C_FILE_NAME; C_MD5_DIGEST; C_PATH_NAME; C_SCALING] else []) ++
    (if Nat.ltb 0 (length names) then [C_OBJECTS_FILE_NAME; C_OBJECTS_PATH_NAME; C_COUNT]
     else [])
  else if existsb (String.eqb oname) names then [C_LOCATION; C_NUMBER]
  else [].

End Measurements.

(** Helpers for the statements on the module. *)

(** The [i]-th group's setting is shown by [visible_settings()]. *)
Definition shown (gs : list file_group) (r : setting_ref) : bool :=
  match r with
  | RImageName i | RRescale i =>
      match nth_error gs i with Some g => file_wants_images g | None => false end
  | RObjectName i =>
      match nth_error gs i with Some g => negb (file_wants_images g) | None => false end
  | _ => true
  end.

(** The values of a group's five settings and its removability. *)
Definition group_values (g : file_group) :=
  (can_remove g, file_name g, image_object_choice g, image_name g, rescale g,
   object_name g).

(** The string has no underscore. *)
Definition no_underscore (s : string) : bool :=
  match split_first "_" s with None => true | Some _ => false end.

(** ** Lemmas on the codec *)

Module Codec.

Lemma split_at_bar_app (a b : string) :
  split_at_bar a = None -> split_at_bar (a ++ String "|" b) = Some (a, b).
Proof.
  induction a as [|c a IH]; simpl; intros H; [reflexivity|].
  destruct (Ascii.eqb c "|"%char); [discriminate|].
  destruct (split_at_bar a) as [[x y]|]; [discriminate|].
  rewrite IH by reflexivity. reflexivity.
Qed.

Lemma split_at_bar_join (a b : string) :
  split_at_bar a = None -> split_at_bar (static_join_string a b) = Some (a, b).
Proof. exact (split_at_bar_app a b). Qed.

Lemma split_at_bar_fst (s a b : string) :
  split_at_bar s = Some (a, b) -> split_at_bar a = None.
Proof.
  revert a b; induction s as [|c s IH]; simpl; intros a b H; [discriminate|].
  destruct (Ascii.eqb c "|"%char) eqn:E.
  - injection H as <- <-. reflexivity.
  - destruct (split_at_bar s) as [[x y]|] eqn:Es; [|discriminate].
    injection H as <- <-. simpl. rewrite E, (IH x y eq_refl). reflexivity.
Qed.

Lemma split_at_bar_app_gen (a b : string) :
  split_at_bar (a ++ String "|" b) =
  match split_at_bar a with
  | Some (x, y) => Some (x, (y ++ String "|" b)%string)
  | None => Some (a, b)
  end.
Proof.
  induction a as [|c a IH]; simpl; [reflexivity|].
  destruct (Ascii.eqb c "|"%char); [reflexivity|].
  rewrite IH. destruct (split_at_bar a) as [[x y]|]; reflexivity.
Qed.

Lemma hd_tag_app (a b : string) : hd_tag (a ++ String "|" b) = hd_tag a.
Proof.
  unfold hd_tag. rewrite split_at_bar_app_gen.
  destruct (split_at_bar a) as [[x y]|]; reflexivity.
Qed.

Lemma standardize_tag_no_bar (t : string) :
  split_at_bar t = None -> split_at_bar (standardize_tag t) = None.
Proof.
  intros H. unfold standardize_tag.
  destruct (String.eqb t _); [reflexivity|].
  destruct (String.eqb t _); [reflexivity|].
  destruct (String.eqb t _); [reflexivity|exact H].
Qed.

Lemma standardize_tag_idem (t : string) :
  standardize_tag (standardize_tag t) = standardize_tag t.
Proof.
  unfold standardize_tag at 2 3.
  destruct (String.eqb t "Default Image Folder") eqn:E1; [reflexivity|].
  destruct (String.eqb t "Default Image Directory") eqn:E2; [reflexivity|].
  destruct (String.eqb t "Default Output Directory") eqn:E3; [reflexivity|].
  unfold standardize_tag. rewrite E1, E2, E3. reflexivity.
Qed.

Lemma standardize_tag_url (t : string) :
  standardize_tag t = URL_FOLDER_NAME -> t = URL_FOLDER_NAME.
Proof.
  unfold standardize_tag.
  destruct (String.eqb t _); [discriminate|].
  destruct (String.eqb t _); [discriminate|].
  destruct (String.eqb t _); [discriminate|exact id].
Qed.

(** [upgrade_setting] is idempotent. *)
Lemma upgrade_setting_idem (s : string) :
  upgrade_setting (upgrade_setting s) = upgrade_setting s.
Proof.
  unfold upgrade_setting at 2 3.
  destruct (split_at_bar s) as [[t p]|] eqn:E.
  - unfold upgrade_setting, static_join_string; simpl.
    rewrite split_at_bar_app
      by (apply standardize_tag_no_bar, (split_at_bar_fst s t p E)).
    rewrite standardize_tag_idem. reflexivity.
  - unfold upgrade_setting. rewrite E. reflexivity.
Qed.

End Codec.

(** ** Lemmas on the entry loops of the 3->4 and 4->5 rewrites *)

Module Loops.

Lemma skipn_length_app {A} (pre l : list A) : skipn (length pre) (pre ++ l) = l.
Proof. induction pre; simpl; auto. Qed.

Lemma skipn_plus_app {A} (pre l : list A) k :
  skipn (length pre + k) (pre ++ l) = skipn k l.
Proof. induction pre; simpl; auto. Qed.

Lemma nth_length_app {A} (pre : list A) (x : A) l d :
  nth (length pre) (pre ++ x :: l) d = x.
Proof. induction pre; simpl; auto. Qed.

Lemma py_range_step (k n : nat) :
  k <> 0 -> py_range 1 (1 + k * n) k = range_aux n 1 k.
Proof.
  intros Hk. unfold py_range. f_equal.
  replace (1 + k * n - 1 + k - 1) with (n * k + (k - 1)) by lia.
  rewrite Nat.div_add_l by exact Hk.
  rewrite Nat.div_small by lia. lia.
Qed.

Lemma loop_3_4 (es : list (value * value)) (pre : list value) :
  flat_map (fun i => py_slice (pre ++ concat (map pair_fields es)) i (i + 2)
                     ++ [VStr YES])
           (range_aux (length es) (length pre) 2) =
  concat (map (fun '(a, b) => [a; b; VStr YES]) es).
Proof.
  revert pre; induction es as [|[a b] es IH]; intros pre; [reflexivity|].
  cbn [length range_aux flat_map map concat].
  replace (pre ++ pair_fields (a, b) ++ concat (map pair_fields es))
    with ((pre ++ [a; b]) ++ concat (map pair_fields es))
    by (rewrite <- app_assoc; reflexivity).
  replace (length pre + 2) with (length (pre ++ [a; b]))
    by (rewrite length_app; reflexivity).
  rewrite IH. unfold py_slice.
  rewrite <- (app_assoc pre [a; b]), skipn_length_app, length_app.
  replace (length pre + length [a; b] - length pre) with 2 by (simpl; lia).
  reflexivity.
Qed.

Lemma loop_4_5 (es : list (value * value * value)) (pre : list value) :
  flat_map (fun i => [nth i (pre ++ concat (map triple_fields es)) (VStr "")] ++
                     [VStr IO_IMAGES] ++
                     py_slice (pre ++ concat (map triple_fields es)) (i + 1)
                              (i + S_FILE_SETTINGS_COUNT_V4) ++
                     [VStr "Nuclei"])
           (range_aux (length es) (length pre) S_FILE_SETTINGS_COUNT_V4) =
  concat (map (fun '(f, n, r) => [f; VStr IO_IMAGES; n; r; VStr "Nuclei"]) es).
Proof.
  revert pre; induction es as [|[[f n] r] es IH]; intros pre; [reflexivity|].
  cbn [length range_aux flat_map map concat].
  replace (pre ++ triple_fields (f, n, r) ++ concat (map triple_fields es))
    with ((pre ++ [f; n; r]) ++ concat (map triple_fields es))
    by (rewrite <- app_assoc; reflexivity).
  replace (length pre + S_FILE_SETTINGS_COUNT_V4) with (length (pre ++ [f; n; r]))
    by (rewrite length_app; reflexivity).
  rewrite IH. unfold py_slice. rewrite <- (app_assoc pre [f; n; r]).
  rewrite skipn_plus_app, length_app. cbn [app]. rewrite nth_length_app.
  replace (length pre + length [f; n; r] - (length pre + 1)) with 2 by (simpl; lia).
  reflexivity.
Qed.

Lemma length_concat_pairs (es : list (value * value)) :
  length (concat (map pair_fields es)) = 2 * length es.
Proof. induction es as [|[a b] es IH]; simpl; [reflexivity|]. rewrite IH. lia. Qed.

Lemma length_concat_triples (es : list (value * value * value)) :
  length (concat (map triple_fields es)) = 3 * length es.
Proof. induction es as [|[[a b] c] es IH]; simpl; [reflexivity|]. rewrite IH. lia. Qed.

Lemma rewrite_3_4_aligned (d : value) (es : list (value * value)) :
  rewrite_3_4 (d :: concat (map pair_fields es)) =
  d :: concat (map (fun '(a, b) => [a; b; VStr YES]) es).
Proof.
  unfold rewrite_3_4. cbn [length].
  rewrite length_concat_pairs.
  replace (S (2 * length es)) with (1 + 2 * length es) by lia.
  rewrite py_range_step by lia.
  exact (f_equal (cons d) (loop_3_4 es [d])).
Qed.

Lemma rewrite_4_5_aligned (d : value) (es : list (value * value * value)) :
  rewrite_4_5 (d :: concat (map triple_fields es)) =
  d :: concat (map (fun '(f, n, r) => [f; VStr IO_IMAGES; n; r; VStr "Nuclei"]) es).
Proof.
  unfold rewrite_4_5. cbn [length].
  rewrite length_concat_triples.
  replace (S (3 * length es)) with (1 + S_FILE_SETTINGS_COUNT_V4 * length es)
    by (unfold S_FILE_SETTINGS_COUNT_V4; lia).
  rewrite py_range_step by (unfold S_FILE_SETTINGS_COUNT_V4; lia).
  exact (f_equal (cons d) (loop_4_5 es [d])).
Qed.

(** Every list of even length is a list of pairs. *)
Lemma as_pairs (l : list value) (n : nat) :
  length l = 2 * n -> exists es, l = concat (map pair_fields es) /\ length es = n.
Proof.
  revert l; induction n as [|n IH]; intros l Hl.
  - destruct l; [|discriminate]. exists []. auto.
  - destruct l as [|a [|b l]]; simpl in Hl; try lia.
    destruct (IH l) as [es [-> Hes]]; [lia|].
    exists ((a, b) :: es). simpl. auto.
Qed.

Lemma as_triples (l : list value) (n : nat) :
  length l = 3 * n -> exists es, l = concat (map triple_fields es) /\ length es = n.
Proof.
  revert l; induction n as [|n IH]; intros l Hl.
  - destruct l; [|discriminate]. exists []. auto.
  - destruct l as [|a [|b [|c l]]]; simpl in Hl; try lia.
    destruct (IH l) as [es [-> Hes]]; [lia|].
    exists ((a, b, c) :: es). simpl. auto.
Qed.

Lemma pairs_yes_as_triples (es : list (value * value)) :
  concat (map (fun '(a, b) => [a; b; VStr YES]) es) =
  concat (map triple_fields (map (fun '(a, b) => (a, b, VStr YES)) es)).
Proof. induction es as [|[a b] es IH]; simpl; [reflexivity|]. rewrite IH. reflexivity. Qed.

Lemma length_concat_fives (es : list (value * value * value)) :
  length (concat (map (fun '(f, n, r) => [f; VStr IO_IMAGES; n; r; VStr "Nuclei"]) es))
  = 5 * length es.
Proof. induction es as [|[[a b] c] es IH]; simpl; [reflexivity|]. rewrite IH. lia. Qed.

(** The 3->4 then 4->5 rewrites on a record of [n] width-2 entries give
    [n] width-5 entries. *)
Lemma length_3_4_5 (l : list value) (n : nat) :
  length l = 1 + 2 * n -> length (rewrite_4_5 (rewrite_3_4 l)) = 1 + 5 * n.
Proof.
  intros Hl. destruct l as [|d l]; [discriminate|].
  destruct (as_pairs l n) as [es [-> Hes]]; [simpl in Hl; lia|].
  rewrite rewrite_3_4_aligned, pairs_yes_as_triples, rewrite_4_5_aligned.
  cbn [length]. rewrite length_concat_fives, length_map. lia.
Qed.

Lemma length_4_5 (l : list value) (n : nat) :
  length l = 1 + 3 * n -> length (rewrite_4_5 l) = 1 + 5 * n.
Proof.
  intros Hl. destruct l as [|d l]; [discriminate|].
  destruct (as_triples l n) as [es [-> Hes]]; [simpl in Hl; lia|].
  rewrite rewrite_4_5_aligned. cbn [length]. rewrite length_concat_fives. lia.
Qed.

End Loops.

(** ** Lemmas on the steps of [upgrade_settings] *)

Module Steps.

Lemma standardize_dir_head (b b' : binding) (h h' : list value) :
  standardize_dir b h = (Ok b', h') -> head_ok (contents b' h').
Proof.
  unfold standardize_dir, mbind, deref, lift.
  set (sv := match b with Caller => h | Fresh l => l end).
  assert (Hsv : contents b h = sv) by reflexivity.
  destruct sv as [|v t]; [discriminate|].
  destruct v as [d|items]; [|discriminate]. cbn.
  destruct b; cbn in Hsv; subst; intros H; injection H as <- <-; cbn;
    exists (upgrade_setting d), t; split; auto using Codec.upgrade_setting_idem.
Qed.

Lemma step_2_3_head (l l' : list value) rev fm rev' :
  head_ok l -> step_2_3 l rev fm = Ok (l', rev') -> head_ok l'.
Proof.
  intros (d & t & -> & Hd). unfold step_2_3.
  destruct ((rev =? 2)%Z && negb fm); [|intros H; injection H as <- <-; exists d, t; auto].
  unfold rewrite_2_3. cbn.
  destruct (split_string d) as [[dc cd]|e]; cbn; [|discriminate].
  destruct (String.eqb dc URL_FOLDER_NAME) eqn:Eu.
  - apply String.eqb_eq in Eu. subst dc.
    destruct (map_result _ _) as [fs|e]; cbn; [|discriminate].
    intros H; injection H as <- <-.
    eexists _, _. split; [reflexivity|]. reflexivity.
  - intros H; injection H as <- <-. exists d, t. auto.
Qed.

Lemma step_3_4_head (l l' : list value) rev fm rev' :
  head_ok l -> step_3_4 l rev fm = (l', rev') -> head_ok l'.
Proof.
  intros (d & t & -> & Hd). unfold step_3_4.
  destruct ((rev =? 3)%Z && negb fm); intros H; injection H as <- <-;
    [|exists d, t; auto].
  unfold rewrite_3_4, py_slice. cbn [skipn firstn Nat.sub app].
  eexists _, _. split; [reflexivity|exact Hd].
Qed.

Lemma step_4_5_head (l l' : list value) rev fm rev' :
  head_ok l -> step_4_5 l rev fm = (l', rev') -> head_ok l'.
Proof.
  intros (d & t & -> & Hd). unfold step_4_5.
  destruct ((rev =? 4)%Z && negb fm); intros H; injection H as <- <-;
    [|exists d, t; auto].
  unfold rewrite_4_5, py_slice. cbn [skipn firstn Nat.sub app].
  eexists _, _. split; [reflexivity|exact Hd].
Qed.

(** Every record [upgrade_settings] returns starts with a standardized
    directory field. *)
Lemma upgrade_settings_head v fm r sv v' fm' h :
  upgrade_settings v fm r = (Ok (sv, v', fm'), h) -> head_ok sv.
Proof.
  unfold upgrade_settings, mbind, mret, lift, deref.
  destruct (step_legacy v fm r) as [[[[b rev] fm1]|e] h1]; [|discriminate].
  destruct (step_1_2 b rev fm1 h1) as [[[b2 rev2]|e] h2]; [|discriminate].
  destruct (standardize_dir b2 h2) as [[b3|e] h3] eqn:ES; [|discriminate].
  destruct (step_2_3 (match b3 with Caller => h3 | Fresh l => l end) rev2 fm1)
    as [[sv4 rev4]|e] eqn:E23; [|discriminate].
  destruct (step_3_4 sv4 rev4 fm1) as [sv5 rev5] eqn:E34.
  destruct (step_4_5 sv5 rev5 fm1) as [sv6 rev6] eqn:E45.
  intros H; injection H as <- _ _ _.
  apply (step_4_5_head _ _ _ _ _ (step_3_4_head _ _ _ _ _
          (step_2_3_head _ _ _ _ _ (standardize_dir_head _ _ _ _ ES) E23) E34) E45).
Qed.

(** At revision 5 only the directory field is standardized. *)
Lemma migrate_at_5 (d : string) (t : list value) :
  migrate (VStr d :: t) 5 false = Ok (VStr (upgrade_setting d) :: t).
Proof. reflexivity. Qed.

End Steps.

(** ** Lemmas on whole migrations *)

Module Runs.

Lemma hd_tag_join (a b : string) : hd_tag (static_join_string a b) = hd_tag a.
Proof. exact (Codec.hd_tag_app a b). Qed.

Ltac tag_neq :=
  let E := fresh "E" in intro E; vm_compute in E; discriminate E.

Lemma migrate_at_4 (d : string) (t : list value) :
  migrate (VStr d :: t) 4 false = Ok (rewrite_4_5 (VStr (upgrade_setting d) :: t)).
Proof. reflexivity. Qed.

Lemma migrate_at_3 (d : string) (t : list value) :
  migrate (VStr d :: t) 3 false =
  Ok (rewrite_4_5 (rewrite_3_4 (VStr (upgrade_setting d) :: t))).
Proof. reflexivity. Qed.

Lemma migrate_at_2 (d : string) (t : list value) :
  migrate (VStr d :: t) 2 false =
  match rewrite_2_3 (VStr (upgrade_setting d) :: t) with
  | Ok l => Ok (rewrite_4_5 (rewrite_3_4 l))
  | Err e => Err e
  end.
Proof.
  unfold migrate, upgrade_settings, step_legacy, step_1_2, standardize_dir,
    step_2_3, mbind, mret, lift, deref, assign_item.
  cbn -[rewrite_2_3 rewrite_3_4 rewrite_4_5 upgrade_setting].
  destruct (rewrite_2_3 _); reflexivity.
Qed.

(** A revision-1 record is rewritten to revision 2 and then migrated as a
    revision-2 record. *)
Lemma migrate_at_1 (r : list value) :
  migrate r 1 false =
  match rewrite_1_2 r with Ok l => migrate l 2 false | Err e => Err e end.
Proof.
  unfold migrate, upgrade_settings, step_legacy, step_1_2, standardize_dir,
    step_2_3, mbind, mret, lift, deref, assign_item.
  cbn -[rewrite_1_2 rewrite_2_3 rewrite_3_4 rewrite_4_5 upgrade_setting].
  destruct (rewrite_1_2 r) as [l|e]; [|reflexivity].
  destruct l as [|[d|it] t];
    cbn -[rewrite_2_3 rewrite_3_4 rewrite_4_5 upgrade_setting]; try reflexivity.
  destruct (rewrite_2_3 _); reflexivity.
Qed.

(** A non-URL directory passes the 2->3 rewrite unchanged. *)
Lemma rewrite_2_3_not_url (d : string) (t l : list value) :
  hd_tag d <> URL_FOLDER_NAME ->
  rewrite_2_3 (VStr (upgrade_setting d) :: t) = Ok l ->
  l = VStr (upgrade_setting d) :: t.
Proof.
  intros Hd. unfold rewrite_2_3. cbn [py_index nth_error as_str rbind].
  unfold split_string, upgrade_setting, hd_tag in *.
  destruct (split_at_bar d) as [[a b]|] eqn:E.
  - rewrite Codec.split_at_bar_join
      by (apply Codec.standardize_tag_no_bar, (Codec.split_at_bar_fst d a b E)).
    destruct (existsb _ _); cbn [rbind]; [|discriminate].
    destruct (String.eqb (standardize_tag a) URL_FOLDER_NAME) eqn:Eu.
    + apply String.eqb_eq, Codec.standardize_tag_url in Eu. contradiction.
    + intros H; injection H as <-. reflexivity.
  - rewrite E. discriminate.
Qed.

(** The 1->2 rewrite keeps the entries and does not make the directory a
    URL one. *)
Lemma rewrite_1_2_shape (s0 s1 : string) (t l : list value) :
  hd_tag s0 <> URL_FOLDER_NAME ->
  rewrite_1_2 (VStr s0 :: VStr s1 :: t) = Ok l ->
  exists d, l = VStr d :: t /\ hd_tag d <> URL_FOLDER_NAME.
Proof.
  intros H0. unfold rewrite_1_2. cbn [py_index nth_error as_str rbind].
  destruct (startswith s0 "Default image").
  - cbn -[static_join_string hd_tag]. intros H; injection H as <-. eexists; split; [reflexivity|].
    rewrite hd_tag_join. tag_neq.
  - destruct (veq (VStr s0) DIR_CUSTOM_FOLDER || veq (VStr s0) DIR_CUSTOM_WITH_METADATA).
    + destruct s1 as [|c s1]; cbn [py_getitem0 rbind]; [discriminate|].
      destruct (veq (VStr (String c "")) ".").
      * cbn -[static_join_string hd_tag]. intros H; injection H as <-. eexists; split; [reflexivity|].
        rewrite hd_tag_join. tag_neq.
      * destruct (veq (VStr (String c "")) "&");
          cbn -[static_join_string hd_tag]; intros H; injection H as <-; eexists; (split; [reflexivity|]);
          rewrite hd_tag_join; tag_neq.
    + cbn -[static_join_string hd_tag]. intros H; injection H as <-. eexists; split; [reflexivity|].
      rewrite hd_tag_join. exact H0.
Qed.

(** A revision-2 record of [n] non-URL entries migrates to [n] entries. *)
Lemma count_at_2 (d : string) (t r' : list value) (n : nat) :
  length t = 2 * n -> hd_tag d <> URL_FOLDER_NAME ->
  migrate (VStr d :: t) 2 false = Ok r' -> length r' = 1 + 5 * n.
Proof.
  intros Ht Hd. rewrite migrate_at_2.
  destruct (rewrite_2_3 _) as [l|e] eqn:E; [|discriminate].
  apply rewrite_2_3_not_url in E; [|exact Hd]. subst l.
  intros H; injection H as <-. apply Loops.length_3_4_5. simpl. lia.
Qed.

(** The legacy rewrite's first step writes the folder choice into field 0. *)
Lemma legacy_dir_choice_eq (x0 x1 : value) (rest : list value) :
  legacy_dir_choice (x0 :: x1 :: rest) =
  Ok (VStr (if veq x1 "." then DEFAULT_INPUT_FOLDER_NAME
            else if veq x1 "&" then DEFAULT_OUTPUT_FOLDER_NAME
            else DIR_CUSTOM_FOLDER) :: x1 :: rest).
Proof. reflexivity. Qed.

(** Removing the do-not-use entries keeps field 0. *)
Lemma legacy_remove_unused_head (y0 : value) (ys : list value) :
  9 <= length ys -> exists t, legacy_remove_unused (y0 :: ys) = Ok (y0 :: t).
Proof.
  intros H.
  destruct ys as [|y1 [|y2 [|y3 [|y4 [|y5 [|y6 [|y7 [|y8 [|y9 ys]]]]]]]]];
    cbn in H; try lia.
  unfold legacy_remove_unused, remove_do_not_use.
  repeat progress (cbn -[veq];
    try match goal with |- context [veq ?a ?b] => destruct (veq a b) end).
  all: eexists; reflexivity.
Qed.

(** A legacy record with fewer than 10 fields raises [IndexError]. *)
Lemma legacy_short (rs : list string) :
  length rs < 10 -> migrate (strs rs) 4 true = Err IndexError.
Proof.
  intros H.
  do 10 (destruct rs as [|? rs]; [reflexivity|]).
  cbn in H. lia.
Qed.

End Runs.

(** * Properties of the migration *)

(** ** URL absorption in the 2->3 rewrite *)

(** C1 (code bug): on a revision-2 record with URL folder "data/plateA" and
    one entry ("img.tif", "OrigBlue"), the 2->3 rewrite computes the filename
    "data/plateA/img.tif" and clears the custom path, but Python 2's [zip]
    leaves the entry as one tuple: the record is not a flat sequence of
    strings any more, and the later rewrites treat the tuple as one field. *)
Theorem url_absorption_leaves_tuple :
  rewrite_2_3 (strs ["URL|data/plateA"; "img.tif"; "OrigBlue"]) =
    Ok [VStr "URL|"; VTuple [VStr "data/plateA/img.tif"; VStr "OrigBlue"]] /\
  all_str [VStr "URL|"; VTuple [VStr "data/plateA/img.tif"; VStr "OrigBlue"]] = false /\
  migrate (strs ["URL|data/plateA"; "img.tif"; "OrigBlue"]) 2 false =
    Ok [VStr "URL|"; VTuple [VStr "data/plateA/img.tif"; VStr "OrigBlue"];
        VStr IO_IMAGES; VStr YES; VStr "Nuclei"].
Proof. split; [|split]; reflexivity. Qed.

(** ** No alignment check *)

(** C2 (counterexample): a revision-5 record with a tail of 7 fields (entry
    width 5) is migrated without any error. *)
Lemma misaligned_record_migrates :
  migrate (strs ["Default Input Folder|"; "a"; "b"; "c"; "d"; "e"; "f"; "g"]) 5 false =
  Ok (strs ["Default Input Folder|"; "a"; "b"; "c"; "d"; "e"; "f"; "g"]).
Proof. reflexivity. Qed.

(** C2 (amended): migration has no alignment check; every non-legacy record
    at revision 3, 4 or 5 whose first field is a string is migrated without
    error, whatever its tail length. *)
Theorem migrate_no_alignment_check (s : string) (rest : list string) (v : Z) :
  (3 <= v <= 5)%Z -> exists out, migrate (strs (s :: rest)) v false = Ok out.
Proof.
  intros Hv.
  assert (v = 3 \/ v = 4 \/ v = 5)%Z as [-> | [-> | ->]] by lia;
    eexists; reflexivity.
Qed.

Lemma migrate_no_alignment_check_witness :
  (3 <= 5 <= 5)%Z /\
  exists out, migrate (strs ["Default Input Folder|"; "a"; "b"; "c"; "d"; "e"; "f"; "g"]) 5 false
              = Ok out.
Proof.
  split; [lia|].
  apply (migrate_no_alignment_check "Default Input Folder|" ["a"; "b"; "c"; "d"; "e"; "f"; "g"] 5).
  lia.
Defined.

(** ** Revisions without a rewrite *)

(** C3 (counterexample): a native revision-6 record and a legacy revision-3
    record come back with their revision and flag unchanged, not with an
    error. *)
Lemma unknown_revision_returned :
  fst (upgrade_settings 6 false (strs ["URL|x"])) = Ok (strs ["URL|x"], 6%Z, false) /\
  fst (upgrade_settings 3 true (strs ["Default Input Folder|"; "a"; "b"])) =
    Ok (strs ["Default Input Folder|"; "a"; "b"], 3%Z, true).
Proof. split; reflexivity. Qed.

(** C3 (amended): for a (revision, from_matlab) pair that selects no rewrite,
    [upgrade_settings] raises nothing: it returns the record with only its
    directory field standardized, with the revision and flag unchanged. *)
Theorem no_rule_returns_record (s : string) (rest : list value) (v : Z) (fm : bool) :
  has_rewrite v fm = false ->
  fst (upgrade_settings v fm (VStr s :: rest)) =
    Ok (VStr (upgrade_setting s) :: rest, v, fm).
Proof.
  intros H.
  assert (Hleg : fm && (v =? 4)%Z = false)
    by (destruct fm; [exact H|reflexivity]).
  assert (Hc : forall k, (1 <= k <= 4)%Z -> (v =? k)%Z && negb fm = false).
  { intros k Hk. destruct fm; [apply andb_false_r|].
    rewrite andb_true_r. apply Z.eqb_neq. intros ->.
    unfold has_rewrite in H. apply andb_false_iff in H.
    destruct H as [H|H]; [apply Z.leb_gt in H|apply Z.leb_gt in H]; lia. }
  unfold upgrade_settings, step_legacy.
  rewrite Hleg.
  cbv beta iota delta [mbind mret lift deref].
  unfold step_1_2. rewrite (Hc 1%Z) by lia.
  cbv beta iota delta [mbind mret lift deref standardize_dir assign_item].
  cbn [py_index nth_error as_str rbind py_setitem length firstn skipn app Nat.ltb Nat.leb].
  unfold step_2_3. rewrite (Hc 2%Z) by lia.
  unfold step_3_4. rewrite (Hc 3%Z) by lia.
  unfold step_4_5. rewrite (Hc 4%Z) by lia.
  reflexivity.
Qed.

Lemma no_rule_returns_record_witness :
  has_rewrite 6 false = false /\
  fst (upgrade_settings 6 false (strs ["URL|x"])) = Ok (strs ["URL|x"], 6%Z, false).
Proof.
  split; [reflexivity|].
  apply (no_rule_returns_record "URL|x" [] 6 false). reflexivity.
Defined.

(** ** Writes into the caller's list *)

(** C4 (code bug): when no earlier block has rebuilt the list (here a
    revision-5 record), line 441 writes the standardized directory into the
    caller's own list: a deprecated "Default Image Folder" tag in the
    caller's record is replaced by "Default Input Folder" after the call. *)
Theorem standardize_dir_writes_caller_list :
  (forall d t, caller_after (VStr d :: t) 5 false = VStr (upgrade_setting d) :: t) /\
  caller_after (strs ["Default Image Folder|"; "img.tif"; "Images"; "OrigBlue"; "Yes"; "Nuclei"])
    5 false =
  strs ["Default Input Folder|"; "img.tif"; "Images"; "OrigBlue"; "Yes"; "Nuclei"].
Proof. split; [intros d t|]; reflexivity. Qed.

(** ** Idempotence at the current revision *)

(** C5: migrating the result of a migration again, from revision 5 and not
    from Matlab, returns it unchanged. *)
Theorem migrate_idempotent (r r' : list value) (v : Z) (fm : bool) :
  migrate r v fm = Ok r' -> migrate r' 5 false = Ok r'.
Proof.
  unfold migrate at 1.
  destruct (upgrade_settings v fm r) as [[[[sv v'] fm']|e] h] eqn:E;
    cbn [fst]; intros H; [|discriminate].
  injection H as <-.
  destruct (Steps.upgrade_settings_head _ _ _ _ _ _ _ E) as (d & t & -> & Hd).
  rewrite Steps.migrate_at_5, Hd. reflexivity.
Qed.

Lemma migrate_idempotent_witness :
  migrate (strs ["URL|data/plateA"; "img.tif"; "OrigBlue"]) 2 false =
    Ok [VStr "URL|"; VTuple [VStr "data/plateA/img.tif"; VStr "OrigBlue"];
        VStr IO_IMAGES; VStr YES; VStr "Nuclei"] /\
  migrate [VStr "URL|"; VTuple [VStr "data/plateA/img.tif"; VStr "OrigBlue"];
           VStr IO_IMAGES; VStr YES; VStr "Nuclei"] 5 false =
    Ok [VStr "URL|"; VTuple [VStr "data/plateA/img.tif"; VStr "OrigBlue"];
        VStr IO_IMAGES; VStr YES; VStr "Nuclei"].
Proof.
  split; [reflexivity|].
  apply (migrate_idempotent (strs ["URL|data/plateA"; "img.tif"; "OrigBlue"]) _ 2 false).
  reflexivity.
Defined.

(** ** Entry counts *)

(** C6 (counterexample): the legacy rewrite only looks at the entries in
    fields 4-5, 6-7 and 8-9; a do-not-use entry in fields 2-3 or 10-11 is
    kept. *)
Lemma unused_entry_kept :
  rewrite_legacy (strs [""; "."; "f1"; DO_NOT_USE; "f2"; "n2"; "f3"; "n3";
                        "f4"; "n4"; "f5"; DO_NOT_USE]) =
  Ok (strs [DEFAULT_INPUT_FOLDER_NAME; "."; "f1"; DO_NOT_USE; "f2"; "n2"; "f3"; "n3";
            "f4"; "n4"; "f5"; DO_NOT_USE]).
Proof. reflexivity. Qed.

(** C6 (amended): a non-legacy record at revision 1 to 5 with [n] aligned
    entries and a directory that is not URL-typed migrates to a record of [n]
    width-5 entries; the legacy rewrite removes exactly those of the entries
    in fields 4-5, 6-7 and 8-9 whose image name is the do-not-use sentinel,
    and nothing else. *)
Theorem entry_count_preserved :
  (forall (rs : list string) (v : Z) (n : nat) (r' : list value),
     (1 <= v <= 5)%Z ->
     length rs = prefix_len v + entry_width v * n ->
     hd_tag (hd "" rs) <> URL_FOLDER_NAME ->
     migrate (strs rs) v false = Ok r' ->
     length r' = 1 + 5 * n) /\
  (forall x0 x1 f1 n1 f2 n2 f3 n3 f4 n4 (rest : list string),
     exists c,
       rewrite_legacy (strs ([x0; x1; f1; n1; f2; n2; f3; n3; f4; n4] ++ rest)) =
       Ok (VStr c :: strs ([x1; f1; n1] ++ keep_entry f2 n2 ++ keep_entry f3 n3 ++
                           keep_entry f4 n4 ++ rest))).
Proof.
  split.
  - intros rs v n r' Hv Hlen Hurl.
    assert (v = 1 \/ v = 2 \/ v = 3 \/ v = 4 \/ v = 5)%Z
      as [-> | [-> | [-> | [-> | ->]]]] by lia;
      cbn [prefix_len entry_width Z.eqb Pos.eqb] in Hlen.
    + destruct rs as [|s0 [|s1 t]]; cbn in Hlen; try lia.
      cbn [strs map hd] in *. rewrite Runs.migrate_at_1.
      destruct (rewrite_1_2 _) as [l|e] eqn:E; [|discriminate].
      destruct (Runs.rewrite_1_2_shape _ _ _ _ Hurl E) as (d & -> & Hd).
      apply (Runs.count_at_2 d (map VStr t)); [rewrite length_map; lia|exact Hd].
    + destruct rs as [|s0 t]; cbn in Hlen; try lia.
      apply (Runs.count_at_2 s0 (map VStr t)); [rewrite length_map; lia|exact Hurl].
    + destruct rs as [|s0 t]; cbn in Hlen; try lia.
      cbn [strs map]. rewrite Runs.migrate_at_3. intros H; injection H as <-.
      apply Loops.length_3_4_5. cbn. rewrite length_map. lia.
    + destruct rs as [|s0 t]; cbn in Hlen; try lia.
      cbn [strs map]. rewrite Runs.migrate_at_4. intros H; injection H as <-.
      apply Loops.length_4_5. cbn. rewrite length_map. lia.
    + destruct rs as [|s0 t]; cbn in Hlen; try lia.
      cbn [strs map]. rewrite Steps.migrate_at_5. intros H; injection H as <-.
      cbn. rewrite length_map. lia.
  - intros. unfold keep_entry.
    destruct (String.eqb n4 DO_NOT_USE) eqn:E4;
    destruct (String.eqb n3 DO_NOT_USE) eqn:E3;
    destruct (String.eqb n2 DO_NOT_USE) eqn:E2;
    eexists; unfold rewrite_legacy, legacy_remove_unused, remove_do_not_use;
    cbn -[String.eqb DO_NOT_USE]; rewrite ?E4; cbn -[String.eqb DO_NOT_USE];
    rewrite ?E3; cbn -[String.eqb DO_NOT_USE]; rewrite ?E2; reflexivity.
Qed.

Lemma entry_count_preserved_witness :
  length (strs ["Default Input Folder|"; "a"; "b"; "c"]) = prefix_len 4%Z + entry_width 4%Z * 1 /\
  (exists r', migrate (strs ["Default Input Folder|"; "a"; "b"; "c"]) 4 false = Ok r' /\
              length r' = 6).
Proof.
  split; [reflexivity|].
  eexists; split; [reflexivity|].
  apply (proj1 entry_count_preserved ["Default Input Folder|"; "a"; "b"; "c"] 4%Z 1);
    [lia | reflexivity | let E := fresh in intro E; vm_compute in E; discriminate E | reflexivity].
Defined.

(** ** The folder tag of the legacy rewrite *)

(** C7 (counterexample): the legacy rewrite does not insert a field: before
    any deletion the record keeps its 10 fields and its second field. *)
Lemma legacy_tag_not_inserted :
  legacy_dir_choice (strs [""; "."; "f1"; "n1"; "f2"; "n2"; "f3"; "n3"; "f4"; "n4"]) =
    Ok (strs [DEFAULT_INPUT_FOLDER_NAME; "."; "f1"; "n1"; "f2"; "n2"; "f3"; "n3"; "f4"; "n4"]) /\
  length (strs [DEFAULT_INPUT_FOLDER_NAME; "."; "f1"; "n1"; "f2"; "n2"; "f3"; "n3"; "f4"; "n4"])
    <> S (length (strs [""; "."; "f1"; "n1"; "f2"; "n2"; "f3"; "n3"; "f4"; "n4"])).
Proof. split; [reflexivity|discriminate]. Qed.

(** C7 (amended): on a legacy record of at least two fields, the first step
    of the legacy rewrite overwrites the first field (blank in Matlab),
    whatever it held, with the folder tag computed from the second field
    ("." gives the default input folder, "&" the default output folder,
    anything else the custom folder): the length and every other field stay
    as they were. *)
Theorem legacy_tag_overwrites_first (x0 x1 : value) (rest : list value) :
  legacy_dir_choice (x0 :: x1 :: rest) =
  Ok (VStr (if veq x1 "." then DEFAULT_INPUT_FOLDER_NAME
            else if veq x1 "&" then DEFAULT_OUTPUT_FOLDER_NAME
            else DIR_CUSTOM_FOLDER) :: x1 :: rest).
Proof. apply Runs.legacy_dir_choice_eq. Qed.

(** ** The data model of the 4->5 rewrite *)

(** C9: the 4->5 rewrite turns every width-3 entry (filename, image name,
    rescale) into (filename, image choice, image name, rescale, "Nuclei");
    ("img.tif", "OrigBlue", "yes") becomes
    ("img.tif", "Images", "OrigBlue", "yes", "Nuclei"). *)
Theorem choice_after_filename (d : value) (es : list (value * value * value)) :
  rewrite_4_5 (d :: concat (map triple_fields es)) =
    d :: concat (map (fun '(f, n, r) => [f; VStr IO_IMAGES; n; r; VStr "Nuclei"]) es) /\
  rewrite_4_5 [d; VStr "img.tif"; VStr "OrigBlue"; VStr "yes"] =
    [d; VStr "img.tif"; VStr IO_IMAGES; VStr "OrigBlue"; VStr "yes"; VStr "Nuclei"].
Proof. split; [apply Loops.rewrite_4_5_aligned|reflexivity]. Qed.

(** ** Legacy sentinel mapping *)

(** C10 (counterexample): a legacy record of two fields, second field ".",
    makes the migration raise [IndexError]. *)
Lemma short_legacy_record_raises :
  migrate (strs [""; "."]) 4 true = Err IndexError.
Proof. reflexivity. Qed.

(** C10 (amended): on a legacy record of at least 10 fields, the legacy
    rewrite sets the first field from the second: "." gives the default
    input folder, "&" the default output folder, anything else the custom
    folder choice; a legacy record of fewer than 10 fields raises
    [IndexError]. *)
Theorem legacy_folder_choice (x0 x1 : string) (rest : list string) :
  8 <= length rest ->
  (x1 = "." -> exists t,
     rewrite_legacy (strs (x0 :: x1 :: rest)) = Ok (VStr DEFAULT_INPUT_FOLDER_NAME :: t)) /\
  (x1 = "&" -> exists t,
     rewrite_legacy (strs (x0 :: x1 :: rest)) = Ok (VStr DEFAULT_OUTPUT_FOLDER_NAME :: t)) /\
  (x1 <> "." -> x1 <> "&" -> exists t,
     rewrite_legacy (strs (x0 :: x1 :: rest)) = Ok (VStr DIR_CUSTOM_FOLDER :: t)) /\
  (forall rs, length rs < 10 -> migrate (strs rs) 4 true = Err IndexError).
Proof.
  intros Hrest.
  assert (Hhead : exists t, rewrite_legacy (strs (x0 :: x1 :: rest)) =
            Ok (VStr (if String.eqb x1 "." then DEFAULT_INPUT_FOLDER_NAME
                      else if String.eqb x1 "&" then DEFAULT_OUTPUT_FOLDER_NAME
                      else DIR_CUSTOM_FOLDER) :: t)).
  { unfold rewrite_legacy. cbn [strs map].
    rewrite Runs.legacy_dir_choice_eq. cbn [rbind veq].
    apply Runs.legacy_remove_unused_head. cbn. rewrite length_map. lia. }
  split; [|split; [|split]].
  - intros ->. exact Hhead.
  - intros ->. exact Hhead.
  - intros H1 H2. apply String.eqb_neq in H1, H2. rewrite H1, H2 in Hhead.
    exact Hhead.
  - exact Runs.legacy_short.
Qed.

Lemma legacy_folder_choice_witness :
  8 <= length ["f1"; "n1"; "f2"; "n2"; "f3"; "n3"; "f4"; "n4"] /\
  exists t, rewrite_legacy (strs [""; "&"; "f1"; "n1"; "f2"; "n2"; "f3"; "n3"; "f4"; "n4"]) =
            Ok (VStr DEFAULT_OUTPUT_FOLDER_NAME :: t).
Proof.
  split; [cbn; lia|].
  apply (legacy_folder_choice "" "&" ["f1"; "n1"; "f2"; "n2"; "f3"; "n3"; "f4"; "n4"]);
    [cbn; lia | reflexivity].
Defined.

(** ** Totality of the 1->2 rewrite *)

(** C8 (code bug): the 1->2 rewrite reads [custom_directory[0]] (line 424)
    without checking for an empty path: a revision-1 record with the
    custom-folder choice and an empty directory raises [IndexError]. *)
Theorem custom_empty_dir_raises :
  rewrite_1_2 (strs [DIR_CUSTOM_FOLDER; ""]) = Err IndexError /\
  migrate (strs [DIR_CUSTOM_FOLDER; ""]) 1 false = Err IndexError.
Proof. split; reflexivity. Qed.

(** * Properties of the module's other methods *)

(** ** Lemmas on the settings groups *)

Module Groups.

Lemma add_files_while_spec cd bd fuel count self :
  (0 <= count)%Z ->
  Z.to_nat count <= length (file_settings self) + fuel ->
  file_settings (add_files_while cd bd fuel count self) =
  file_settings self ++
  repeat (new_file_group cd bd true) (Z.to_nat count - length (file_settings self)).
Proof.
  revert self; induction fuel as [|fuel IH]; intros self Hc Hf; cbn [add_files_while].
  - replace (Z.to_nat count - length (file_settings self)) with 0 by lia.
    rewrite app_nil_r. reflexivity.
  - destruct (Z.of_nat (length (file_settings self)) <? count)%Z eqn:E.
    + apply Z.ltb_lt in E.
      rewrite IH by (unfold add_file; cbn [file_settings]; rewrite ?length_app;
                     cbn [length]; lia).
      unfold add_file. cbn [file_settings]. rewrite length_app. cbn [length].
      rewrite <- app_assoc. f_equal.
      replace (Z.to_nat count - length (file_settings self))
        with (S (Z.to_nat count - (length (file_settings self) + 1))) by lia.
      reflexivity.
    + apply Z.ltb_ge in E.
      replace (Z.to_nat count - length (file_settings self)) with 0 by lia.
      rewrite app_nil_r. reflexivity.
Qed.

Lemma py_del_from_nat {A} (l : list A) (c : nat) :
  py_del_from l (Z.of_nat c) = firstn c l.
Proof.
  unfold py_del_from.
  destruct (Z.of_nat c <? 0)%Z eqn:E; [apply Z.ltb_lt in E; lia|].
  destruct (Nat.le_ge_cases c (length l)) as [H|H].
  - rewrite Z.min_l by lia. rewrite Nat2Z.id. reflexivity.
  - rewrite Z.min_r by lia. rewrite Nat2Z.id.
    rewrite (firstn_all2 l) by lia. rewrite (firstn_all2 l) by lia. reflexivity.
Qed.

Lemma prepare_count (n : nat) :
  1 <= n ->
  ((Z.of_nat n - 1) / Z.of_nat S_FILE_SETTINGS_COUNT_V5)%Z = Z.of_nat ((n - 1) / 5).
Proof.
  intros H. unfold S_FILE_SETTINGS_COUNT_V5.
  rewrite Nat2Z.inj_div, Nat2Z.inj_sub by lia. reflexivity.
Qed.

(** [prepare_settings] keeps the first [count] groups and adds removable
    new groups up to [count]. *)
Lemma prepare_settings_groups cd bd (sv : list value) self :
  1 <= length sv ->
  file_settings (prepare_settings cd bd sv self) =
  firstn ((length sv - 1) / 5) (file_settings self) ++
  repeat (new_file_group cd bd true)
         ((length sv - 1) / 5 - length (file_settings self)).
Proof.
  intros H. unfold prepare_settings. cbv zeta.
  rewrite prepare_count by exact H.
  rewrite add_files_while_spec by (cbn [file_settings]; rewrite ?Nat2Z.id; lia).
  cbn [file_settings]. rewrite py_del_from_nat, Nat2Z.id, length_firstn.
  f_equal. f_equal. lia.
Qed.

Lemma prepare_settings_length cd bd (sv : list value) self :
  1 <= length sv ->
  length (file_settings (prepare_settings cd bd sv self)) = (length sv - 1) / 5.
Proof.
  intros H. rewrite prepare_settings_groups by exact H.
  rewrite length_app, length_firstn, repeat_length. lia.
Qed.

Lemma settings_loop_first i dc g gs :
  fst (settings_loop i dc (g :: gs)) = group_settings i ++ fst (settings_loop (S i) dc gs).
Proof. cbn. destruct (settings_loop (S i) dc gs); reflexivity. Qed.

Lemma settings_loop_length i dc gs :
  length (fst (settings_loop i dc gs)) = 5 * length gs.
Proof.
  revert i; induction gs as [|g gs IH]; intros i; [reflexivity|].
  rewrite settings_loop_first, length_app, IH. unfold group_settings. cbn [length]. lia.
Qed.

Lemma settings_loop_groups i dc gs :
  snd (settings_loop i dc gs) = map (label_file_name (String.eqb dc URL_FOLDER_NAME)) gs.
Proof.
  revert i; induction gs as [|g gs IH]; intros i; [reflexivity|].
  cbn. specialize (IH (S i)). destruct (settings_loop (S i) dc gs). cbn in *.
  rewrite IH. reflexivity.
Qed.

Lemma settings_fst self :
  fst (settings self) = RDirectory :: fst (settings_loop 0 (dir_choice self) (file_settings self)).
Proof. unfold settings. destruct (settings_loop _ _ _); reflexivity. Qed.

Lemma settings_snd self :
  snd (settings self) =
  {| dir_choice := dir_choice self;
     file_settings := map (label_file_name (String.eqb (dir_choice self) URL_FOLDER_NAME))
                          (file_settings self) |}.
Proof.
  unfold settings. rewrite <- settings_loop_groups with (i := 0).
  destruct (settings_loop _ _ _); reflexivity.
Qed.

Lemma settings_length self :
  length (fst (settings self)) = 1 + 5 * length (file_settings self).
Proof. rewrite settings_fst. cbn [length]. rewrite settings_loop_length. reflexivity. Qed.

Lemma nth_error_length_app {A} (pre : list A) (x : A) (l : list A) :
  nth_error (pre ++ x :: l) (length pre) = Some x.
Proof. induction pre; cbn; auto. Qed.

Lemma visible_loop_filter (pre gs : list file_group) dc :
  filter (shown (pre ++ gs)) (fst (settings_loop (length pre) dc gs)) =
  visible_loop (length pre) gs.
Proof.
  revert pre; induction gs as [|g gs IH]; intros pre; [reflexivity|].
  rewrite settings_loop_first, filter_app.
  replace (S (length pre)) with (length (pre ++ [g]))
    by (rewrite length_app; cbn; lia).
  replace (pre ++ g :: gs) with ((pre ++ [g]) ++ gs)
    by (rewrite <- app_assoc; reflexivity).
  rewrite IH. rewrite <- app_assoc. cbn [app].
  unfold group_settings. cbn [filter shown].
  rewrite nth_error_length_app. cbn [visible_loop].
  replace (length (pre ++ [g])) with (S (length pre)) by (rewrite length_app; cbn; lia).
  destruct (file_wants_images g); reflexivity.
Qed.

End Groups.

(** ** Loading a settings record into the module *)

(** [prepare_settings] on a record of [n >= 1] fields keeps the first
    [(n - 1) / 5] groups as they are (all of them when there are fewer) and
    appends new removable default groups up to that count. *)
Theorem prepare_settings_keeps_groups (choice_default : string) (browsable_default : bool)
    (setting_values : list value) (self : load_single_image) :
  1 <= length setting_values ->
  file_settings (prepare_settings choice_default browsable_default setting_values self) =
  firstn ((length setting_values - 1) / 5) (file_settings self) ++
  repeat (new_file_group choice_default browsable_default true)
         ((length setting_values - 1) / 5 - length (file_settings self)).
Proof. exact (Groups.prepare_settings_groups choice_default browsable_default setting_values self). Qed.

Lemma prepare_settings_keeps_groups_witness :
  1 <= length (strs ["URL|"; "a.tif"; "Images"; "OrigBlue"; "Yes"; "Nuclei"]) /\
  file_settings (prepare_settings "Images" true
                   (strs ["URL|"; "a.tif"; "Images"; "OrigBlue"; "Yes"; "Nuclei"])
                   {| dir_choice := "URL"; file_settings := [] |}) =
  [new_file_group "Images" true true].
Proof.
  split; [cbn; lia|].
  exact (prepare_settings_keeps_groups "Images" true
           (strs ["URL|"; "a.tif"; "Images"; "OrigBlue"; "Yes"; "Nuclei"])
           {| dir_choice := "URL"; file_settings := [] |}
           ltac:(cbn; lia)).
Defined.

(** An empty record makes [prepare_settings] compute [count = -1] (Python 2
    floors [(0 - 1) / 5]), so [del self.file_settings[-1:]] drops the last
    group. *)
Theorem prepare_settings_empty_drops_last (choice_default : string)
    (browsable_default : bool) (self : load_single_image) :
  file_settings (prepare_settings choice_default browsable_default [] self) =
  removelast (file_settings self).
Proof.
  unfold prepare_settings. cbv zeta. cbn [length Z.of_nat].
  replace ((0 - 1) / Z.of_nat S_FILE_SETTINGS_COUNT_V5)%Z with (-1)%Z by reflexivity.
  cbn [add_files_while Z.to_nat file_settings].
  unfold py_del_from. cbn [Z.ltb Z.compare].
  rewrite removelast_firstn_len. f_equal. lia.
Qed.

(** After [prepare_settings] on a record of [n >= 1] fields, [settings()]
    has exactly [n] slots when [n - 1] is a multiple of 5; otherwise it has
    fewer, and the record's last [(n - 1) mod 5] fields have no setting. *)
Theorem prepared_slots_match_record (choice_default : string) (browsable_default : bool)
    (setting_values : list value) (self : load_single_image) :
  1 <= length setting_values ->
  (length (fst (settings (prepare_settings choice_default browsable_default
                                            setting_values self)))
   = length setting_values
   <-> (length setting_values - 1) mod 5 = 0) /\
  length (fst (settings (prepare_settings choice_default browsable_default
                                         setting_values self)))
  = length setting_values - (length setting_values - 1) mod 5.
Proof.
  intros H.
  rewrite Groups.settings_length, Groups.prepare_settings_length by exact H.
  pose proof (Nat.div_mod_eq (length setting_values - 1) 5).
  pose proof (Nat.mod_upper_bound (length setting_values - 1) 5).
  split; [split|]; lia.
Qed.

Lemma prepared_slots_match_record_witness :
  1 <= length (strs ["URL|"; "a.tif"; "Images"; "OrigBlue"; "Yes"; "Nuclei"; "b.tif"]) /\
  length (fst (settings (prepare_settings "Images" true
                 (strs ["URL|"; "a.tif"; "Images"; "OrigBlue"; "Yes"; "Nuclei"; "b.tif"])
                 {| dir_choice := "URL"; file_settings := [] |}))) = 6.
Proof.
  split; [cbn; lia|].
  exact (proj2 (prepared_slots_match_record "Images" true
           (strs ["URL|"; "a.tif"; "Images"; "OrigBlue"; "Yes"; "Nuclei"; "b.tif"])
           {| dir_choice := "URL"; file_settings := [] |} ltac:(cbn; lia))).
Defined.

(** A native record at revision 3 with [n] two-field entries, or at
    revision 4 with [n] three-field entries, migrates without error to a
    record on which [prepare_settings] makes [n] groups and [settings()]
    has exactly one slot per field. *)
Theorem migrated_record_fills_settings (choice_default : string) (browsable_default : bool)
    (d : string) (t : list value) (v : Z) (n : nat) (self : load_single_image) :
  ((v = 3)%Z /\ length t = 2 * n) \/ ((v = 4)%Z /\ length t = 3 * n) ->
  exists r',
    migrate (VStr d :: t) v false = Ok r' /\
    length (file_settings (prepare_settings choice_default browsable_default r' self)) = n /\
    length (fst (settings (prepare_settings choice_default browsable_default r' self)))
    = length r'.
Proof.
  intros Hv.
  assert (Hlen : exists r', migrate (VStr d :: t) v false = Ok r' /\
                            length r' = 1 + 5 * n).
  { destruct Hv as [[-> Ht] | [-> Ht]].
    - eexists. split; [apply Runs.migrate_at_3|].
      apply Loops.length_3_4_5. cbn [length]. lia.
    - eexists. split; [apply Runs.migrate_at_4|].
      apply Loops.length_4_5. cbn [length]. lia. }
  destruct Hlen as (r' & Hm & Hl).
  exists r'. split; [exact Hm|].
  rewrite Groups.settings_length, Groups.prepare_settings_length by lia.
  rewrite Hl. replace (1 + 5 * n - 1) with (n * 5) by lia.
  rewrite Nat.div_mul by lia. split; lia.
Qed.

Lemma migrated_record_fills_settings_witness :
  ((3 = 3)%Z /\ length (strs ["a.tif"; "OrigBlue"]) = 2 * 1) /\
  exists r',
    migrate (strs ["Default Input Folder|"; "a.tif"; "OrigBlue"]) 3 false = Ok r' /\
    length (file_settings (prepare_settings "Images" true r'
                             {| dir_choice := "URL"; file_settings := [] |})) = 1 /\
    length (fst (settings (prepare_settings "Images" true r'
                             {| dir_choice := "URL"; file_settings := [] |})))
    = length r'.
Proof.
  split; [split; reflexivity|].
  exact (migrated_record_fills_settings "Images" true "Default Input Folder|"
           (strs ["a.tif"; "OrigBlue"]) 3 1
           {| dir_choice := "URL"; file_settings := [] |}
           (or_introl (conj eq_refl eq_refl))).
Defined.

(** [help_settings()] is the first six slots of [settings()] (the directory
    and the first group's five settings) and raises [IndexError] on a module
    without groups. *)
Theorem help_settings_first_group (self : load_single_image) :
  help_settings self =
  match file_settings self with
  | [] => Err IndexError
  | _ :: _ => Ok (firstn 6 (fst (settings self)))
  end.
Proof.
  rewrite Groups.settings_fst. unfold help_settings.
  destruct (file_settings self) as [|g gs]; [reflexivity|].
  rewrite Groups.settings_loop_first. reflexivity.
Qed.

(** After [prepare_settings] on a record of 1 to 5 fields the module has no
    groups left, so [help_settings()] raises [IndexError]. *)
Theorem help_settings_after_short_record (choice_default : string)
    (browsable_default : bool) (setting_values : list value) (self : load_single_image) :
  1 <= length setting_values <= 5 ->
  file_settings (prepare_settings choice_default browsable_default setting_values self) = [] /\
  help_settings (prepare_settings choice_default browsable_default setting_values self)
  = Err IndexError.
Proof.
  intros H.
  assert (Hg : file_settings (prepare_settings choice_default browsable_default
                                              setting_values self) = []).
  { rewrite Groups.prepare_settings_groups by lia.
    rewrite Nat.div_small by lia. reflexivity. }
  split; [exact Hg|]. unfold help_settings. rewrite Hg. reflexivity.
Qed.

Lemma help_settings_after_short_record_witness :
  1 <= length (strs ["Default Input Folder|"]) <= 5 /\
  help_settings (prepare_settings "Images" true (strs ["Default Input Folder|"])
                   {| dir_choice := "Default Input Folder";
                      file_settings := [new_file_group "Images" true false] |})
  = Err IndexError.
Proof.
  split; [cbn; lia|].
  exact (proj2 (help_settings_after_short_record "Images" true
                  (strs ["Default Input Folder|"])
                  {| dir_choice := "Default Input Folder";
                     file_settings := [new_file_group "Images" true false] |}
                  ltac:(cbn; lia))).
Defined.

(** [visible_settings()] lists, in the order of [settings()], the slots of
    [settings()] that the group's choice makes relevant (image name and
    rescale for a group that loads images, object name otherwise), and
    then the add button. *)
Theorem visible_settings_filter_settings (self : load_single_image) :
  visible_settings self =
  filter (shown (file_settings self)) (fst (settings self)) ++ [RAddButton].
Proof.
  unfold visible_settings. rewrite Groups.settings_fst. cbn [filter shown].
  pose proof (Groups.visible_loop_filter [] (file_settings self) (dir_choice self)) as H.
  cbn [app length] in H. rewrite H. reflexivity.
Qed.

(** [settings()] changes no setting value: the folder choice and every
    group's values stay as they were, and only the file names' labels and
    browse buttons change, to the URL label without a browse button exactly
    when the folder choice is the URL one. *)
Theorem settings_only_relabels (self : load_single_image) :
  dir_choice (snd (settings self)) = dir_choice self /\
  map group_values (file_settings (snd (settings self))) =
    map group_values (file_settings self) /\
  Forall (fun g =>
            file_name_text g =
              (if String.eqb (dir_choice self) URL_FOLDER_NAME then URL_TEXT else FILE_TEXT) /\
            file_name_browsable g = negb (String.eqb (dir_choice self) URL_FOLDER_NAME))
         (file_settings (snd (settings self))).
Proof.
  rewrite Groups.settings_snd. cbn [dir_choice file_settings].
  split; [reflexivity|split].
  - rewrite map_map. apply map_ext. intros g. reflexivity.
  - apply Forall_forall. intros g Hg. apply in_map_iff in Hg.
    destruct Hg as (g0 & <- & _). split; reflexivity.
Qed.

(** ** File names by image name *)

Module FileNames.

Lemma dict_get_set (d : list (string * string)) (k v n : string) :
  dict_get (dict_set d k v) n = if String.eqb k n then Some v else dict_get d n.
Proof.
  induction d as [|[k' v'] d IH]; cbn; [reflexivity|].
  destruct (String.eqb k' k) eqn:E.
  - apply String.eqb_eq in E. subst k'. cbn. destruct (String.eqb k n); reflexivity.
  - cbn. destruct (String.eqb k' n) eqn:E2.
    + apply String.eqb_eq in E2. subst n. rewrite String.eqb_sym, E. reflexivity.
    + exact IH.
Qed.

Lemma find_app_single {A} (p : A -> bool) (l : list A) (x : A) :
  find p (l ++ [x]) =
  match find p l with Some y => Some y | None => if p x then Some x else None end.
Proof. induction l as [|a l IH]; cbn; [reflexivity|]. destruct (p a); auto. Qed.

Lemma fold_dict_get (apply_metadata : string -> string) (gs : list file_group)
    (d : list (string * string)) (n : string) :
  dict_get (fold_left (fun result file_setting =>
                         dict_set result (image_name file_setting)
                                  (apply_metadata (file_name file_setting))) gs d) n =
  match find (fun g => String.eqb (image_name g) n) (rev gs) with
  | Some g => Some (apply_metadata (file_name g))
  | None => dict_get d n
  end.
Proof.
  revert d; induction gs as [|g gs IH]; intros d; [reflexivity|].
  cbn [fold_left rev]. rewrite IH, find_app_single, dict_get_set.
  destruct (find _ (rev gs)); [reflexivity|].
  destruct (String.eqb (image_name g) n); reflexivity.
Qed.

Lemma get_file_names_lookup (apply_metadata : string -> string) (self : load_single_image)
    (n : string) :
  dict_get (get_file_names apply_metadata self) n =
  option_map (fun g => apply_metadata (file_name g))
             (find (fun g => String.eqb (image_name g) n) (rev (file_settings self))).
Proof.
  unfold get_file_names. rewrite fold_dict_get.
  destruct (find _ _); reflexivity.
Qed.

End FileNames.

(** [get_file_names] maps an image name to the file pattern, with metadata
    applied, of the LAST group that has that image name, and has no entry
    for a name no group has. *)
Theorem get_file_names_last_group (apply_metadata : string -> string)
    (self : load_single_image) (n : string) :
  dict_get (get_file_names apply_metadata self) n =
  option_map (fun g => apply_metadata (file_name g))
             (find (fun g => String.eqb (image_name g) n) (rev (file_settings self))).
Proof. apply FileNames.get_file_names_lookup. Qed.

(** When two groups share an image name, [get_file_names] takes the file of
    the last one while [get_file_settings] returns the first one, so [run]
    pairs the last group's file with the first group's settings (rescale,
    images or objects). *)
Theorem shared_image_name_mixes_groups (apply_metadata : string -> string)
    (self : load_single_image) (g1 g2 : file_group) (mid : list file_group) (n : string) :
  file_settings self = g1 :: mid ++ [g2] ->
  image_name g1 = n -> image_name g2 = n ->
  get_file_settings self n = Some g1 /\
  dict_get (get_file_names apply_metadata self) n = Some (apply_metadata (file_name g2)).
Proof.
  intros Hgs H1 H2. split.
  - unfold get_file_settings. rewrite Hgs. cbn. rewrite H1, String.eqb_refl. reflexivity.
  - rewrite FileNames.get_file_names_lookup, Hgs. cbn [rev].
    rewrite rev_app_distr. cbn. rewrite H2, String.eqb_refl. reflexivity.
Qed.

Lemma shared_image_name_mixes_groups_witness :
  let g1 := {| can_remove := false; file_name := "illum_A.mat"; file_name_text := FILE_TEXT;
               file_name_browsable := true; image_object_choice := IO_IMAGES;
               image_name := "Illum"; rescale := true; object_name := "Nuclei" |} in
  let g2 := {| can_remove := true; file_name := "illum_B.mat"; file_name_text := FILE_TEXT;
               file_name_browsable := true; image_object_choice := IO_IMAGES;
               image_name := "Illum"; rescale := false; object_name := "Nuclei" |} in
  let self := {| dir_choice := "Default Input Folder"; file_settings := [g1; g2] |} in
  (file_settings self = g1 :: [] ++ [g2] /\ image_name g1 = "Illum" /\
   image_name g2 = "Illum") /\
  get_file_settings self "Illum" = Some g1 /\
  dict_get (get_file_names (fun s => s) self) "Illum" = Some "illum_B.mat".
Proof.
  intros g1 g2 self. split; [split; [|split]; reflexivity|].
  apply (shared_image_name_mixes_groups (fun s => s) self g1 g2 [] "Illum");
    reflexivity.
Defined.

(** ** Measurements *)

Module Measures.

Lemma split_first_join (k b : string) :
  no_underscore k = true -> split_first "_" (join_us k b) = Some (k, b).
Proof.
  unfold no_underscore, join_us. change ("_" ++ b)%string with (String "_" b).
  induction k as [|c k IH]; cbn; intros H; [reflexivity|].
  destruct (Ascii.eqb c "_"%char); [discriminate|].
  destruct (split_first "_" k) as [[x y]|]; [discriminate|].
  rewrite IH by reflexivity. reflexivity.
Qed.

Lemma split_head_join (k b : string) :
  no_underscore k = true -> split_head "_" (join_us k b) = k.
Proof. intros H. unfold split_head. rewrite split_first_join by exact H. reflexivity. Qed.

Lemma split_tail_join (k b : string) :
  no_underscore k = true -> split_tail "_" (join_us k b) = Ok b.
Proof. intros H. unfold split_tail. rewrite split_first_join by exact H. reflexivity. Qed.

Lemma map_result_app {A B} (f : A -> result B) (l1 l2 : list A) :
  map_result f (l1 ++ l2) =
  (a <-? map_result f l1 ;; b <-? map_result f l2 ;; Ok (a ++ b)).
Proof.
  induction l1 as [|x l1 IH]; cbn.
  - destruct (map_result f l2); reflexivity.
  - destruct (f x); cbn; [|reflexivity]. rewrite IH.
    destruct (map_result f l1); cbn; [|reflexivity].
    destruct (map_result f l2); reflexivity.
Qed.

Lemma map_result_in {A B} (f : A -> result B) (l : list A) (res : list B) (x : A) (y : B) :
  map_result f l = Ok res -> In x l -> f x = Ok y -> In y res.
Proof.
  revert res; induction l as [|a l IH]; intros res H Hin Hx; [destruct Hin|].
  cbn in H. destruct (f a) as [b|e] eqn:Ea; cbn in H; [|discriminate].
  destruct (map_result f l) as [bs|e] eqn:El; cbn in H; [|discriminate].
  injection H as <-. destruct Hin as [<-|Hin].
  - left. congruence.
  - right. exact (IH bs eq_refl Hin Hx).
Qed.

Lemma filter_none {A} (p : A -> bool) (l : list A) :
  forallb (fun x => negb (p x)) l = true -> filter p l = [].
Proof.
  induction l as [|a l IH]; cbn; [reflexivity|].
  intros H. apply andb_true_iff in H. destruct H as [Ha Hl].
  destruct (p a); [discriminate|]. exact (IH Hl).
Qed.

End Measures.

Section Measurement_properties.

Variables IMAGE IO_OBJECTS : string.
Variables C_FILE_NAME C_PATH_NAME C_MD5_DIGEST C_SCALING
          C_OBJECTS_FILE_NAME C_OBJECTS_PATH_NAME C_COUNT C_NUMBER C_LOCATION : string.
Variables FTR_OBJECT_NUMBER FTR_CENTER_X FTR_CENTER_Y : string.
Variables COLTYPE_VARCHAR_MD5 COLTYPE_FLOAT COLTYPE_VARCHAR_FILE_NAME
          COLTYPE_VARCHAR_PATH_NAME : string.
Variable get_object_measurement_columns : string -> list (string * string * string).

Local Abbreviation measurements_of :=
  (get_measurements IMAGE IO_OBJECTS C_FILE_NAME C_PATH_NAME C_MD5_DIGEST C_SCALING
     C_OBJECTS_FILE_NAME C_OBJECTS_PATH_NAME C_COUNT C_NUMBER C_LOCATION
     FTR_OBJECT_NUMBER FTR_CENTER_X FTR_CENTER_Y COLTYPE_VARCHAR_MD5 COLTYPE_FLOAT
     COLTYPE_VARCHAR_FILE_NAME COLTYPE_VARCHAR_PATH_NAME get_object_measurement_columns).

Local Abbreviation columns_of :=
  (get_measurement_columns IMAGE C_FILE_NAME C_PATH_NAME C_MD5_DIGEST C_SCALING
     C_OBJECTS_FILE_NAME C_OBJECTS_PATH_NAME COLTYPE_VARCHAR_MD5 COLTYPE_FLOAT
     COLTYPE_VARCHAR_FILE_NAME COLTYPE_VARCHAR_PATH_NAME get_object_measurement_columns).

Local Abbreviation categories_of :=
  (get_categories IMAGE IO_OBJECTS C_FILE_NAME C_PATH_NAME C_MD5_DIGEST C_SCALING
     C_OBJECTS_FILE_NAME C_OBJECTS_PATH_NAME C_COUNT C_NUMBER C_LOCATION).

Lemma image_category_columns (category : string) (gs : list file_group) :
  forallb no_underscore [C_MD5_DIGEST; C_SCALING; C_FILE_NAME; C_PATH_NAME;
                         C_OBJECTS_FILE_NAME; C_OBJECTS_PATH_NAME] = true ->
  length (filter (fun k => String.eqb k category)
                 [C_MD5_DIGEST; C_SCALING; C_FILE_NAME; C_PATH_NAME]) = 1 ->
  String.eqb C_OBJECTS_FILE_NAME category = false ->
  String.eqb C_OBJECTS_PATH_NAME category = false ->
  (forall name, forallb (fun c => negb (String.eqb (split_head "_" (snd (fst c))) category))
                        (get_object_measurement_columns name) = true) ->
  map_result (fun c => split_tail "_" (snd (fst c)))
    (filter (fun c => String.eqb (split_head "_" (snd (fst c))) category)
            (columns_of {| dir_choice := ""; file_settings := gs |})) =
  Ok (map image_name (filter file_wants_images gs)).
Proof.
  intros Hus Hone Hof Hop Hcols.
  cbn [forallb] in Hus. rewrite !andb_true_iff in Hus.
  destruct Hus as (H1 & H2 & H3 & H4 & H5 & H6 & _).
  unfold get_measurement_columns. cbn [file_settings].
  induction gs as [|g gs IH]; [reflexivity|].
  cbn [flat_map]. rewrite filter_app, Measures.map_result_app.
  unfold group_columns at 1. destruct (file_wants_images g) eqn:Ew; cbn [negb].
  - cbn [filter fst snd].
    rewrite !Measures.split_head_join by assumption.
    cbn [filter] in Hone.
    destruct (String.eqb C_MD5_DIGEST category);
    destruct (String.eqb C_SCALING category);
    destruct (String.eqb C_FILE_NAME category);
    destruct (String.eqb C_PATH_NAME category);
    cbn [length] in Hone; try discriminate;
    cbn [map_result fst snd]; rewrite Measures.split_tail_join by assumption;
    cbn [rbind]; rewrite IH; cbn [rbind filter]; rewrite Ew; reflexivity.
  - rewrite filter_app, Measures.filter_none by apply Hcols.
    cbn [filter fst snd]. rewrite !Measures.split_head_join by assumption.
    rewrite Hof, Hop. cbn [map_result rbind app].
    rewrite IH. cbn [rbind filter]. rewrite Ew. reflexivity.
Qed.

(** For an image category ([C_MD5_DIGEST], [C_SCALING], [C_FILE_NAME] or
    [C_PATH_NAME], none with an underscore), [get_measurements(IMAGE,
    category)] returns the image names of the groups that load images, in
    order, underscores in the names included: the "category_name" column
    names are split back at their first underscore. *)
Theorem image_measurements_are_image_names (self : load_single_image) (category : string) :
  forallb no_underscore [C_MD5_DIGEST; C_SCALING; C_FILE_NAME; C_PATH_NAME;
                         C_OBJECTS_FILE_NAME; C_OBJECTS_PATH_NAME] = true ->
  length (filter (fun k => String.eqb k category)
                 [C_MD5_DIGEST; C_SCALING; C_FILE_NAME; C_PATH_NAME]) = 1 ->
  existsb (String.eqb category) [C_OBJECTS_FILE_NAME; C_OBJECTS_PATH_NAME; C_COUNT] = false ->
  (forall name, forallb (fun c => negb (String.eqb (split_head "_" (snd (fst c))) category))
                        (get_object_measurement_columns name) = true) ->
  measurements_of self IMAGE category =
  Ok (map image_name (filter file_wants_images (file_settings self))).
Proof.
  intros Hus Hone Hobj Hcols.
  cbn [existsb] in Hobj. rewrite !orb_false_iff in Hobj.
  destruct Hobj as (Eof & Eop & Ec & _).
  unfold get_measurements. rewrite String.eqb_refl, Ec.
  rewrite String.eqb_sym in Eof, Eop.
  exact (image_category_columns category (file_settings self) Hus Hone Eof Eop Hcols).
Qed.

(** [get_measurements(IMAGE, category)] does not look at which object a
    column belongs to: the feature of every column named "category_feature"
    is listed, the per-object columns of object groups included. *)
Theorem image_measurements_ignore_column_object (self : load_single_image)
    (category o feature coltype : string) (l : list string) :
  no_underscore category = true ->
  String.eqb category C_COUNT = false ->
  In (o, join_us category feature, coltype) (columns_of self) ->
  measurements_of self IMAGE category = Ok l ->
  In feature l.
Proof.
  intros Hus Hc Hin.
  unfold get_measurements. rewrite String.eqb_refl, Hc. intros Hm.
  refine (Measures.map_result_in _ _ _ _ _ Hm _ _).
  - apply filter_In. split; [exact Hin|].
    cbn [fst snd]. rewrite Measures.split_head_join by exact Hus.
    apply String.eqb_refl.
  - cbn [fst snd]. apply Measures.split_tail_join. exact Hus.
Qed.

Lemma map_result_total {A B} (f : A -> result B) (l : list A) :
  (forall x, In x l -> exists y, f x = Ok y) ->
  exists res, map_result f l = Ok res /\ length res = length l.
Proof.
  induction l as [|x t IH]; intros H; [exists []; split; reflexivity|].
  destruct (H x (or_introl eq_refl)) as [y Hy].
  destruct IH as [res [Hr Hl]]; [intros z Hz; apply H; right; exact Hz|].
  exists (y :: res). cbn [map_result]. rewrite Hy. cbn [rbind]. rewrite Hr.
  split; [reflexivity|]. cbn [length]. rewrite Hl. reflexivity.
Qed.

Lemma split_tail_ok (s : string) :
  no_underscore s = false -> exists y, split_tail "_" s = Ok y.
Proof.
  unfold no_underscore, split_tail.
  destruct (split_first "_" s) as [[a b]|]; [eauto|discriminate].
Qed.

Lemma image_branch_nonempty (self : load_single_image) (c : string) :
  String.eqb c C_COUNT = false ->
  (forall x, In x (columns_of self) -> no_underscore (snd (fst x)) = false) ->
  (exists x, In x (columns_of self) /\ split_head "_" (snd (fst x)) = c) ->
  exists l, measurements_of self IMAGE c = Ok l /\ l <> [].
Proof.
  intros Hc Hall [x [Hx Hh]].
  unfold get_measurements. rewrite String.eqb_refl, Hc.
  remember (filter (fun c0 => String.eqb (split_head "_" (snd (fst c0))) c) (columns_of self))
    as fl eqn:Efl.
  assert (Hin : In x fl)
    by (subst fl; apply filter_In; split; [exact Hx|rewrite Hh; apply String.eqb_refl]).
  destruct (map_result_total (fun c0 => split_tail "_" (snd (fst c0))) fl) as [res [Hr Hl]].
  { intros y Hy. subst fl. apply filter_In in Hy. destruct Hy as [Hy _].
    apply split_tail_ok, Hall, Hy. }
  exists res. split; [exact Hr|]. intros ->.
  destruct fl as [|y ys]; [exact Hin|discriminate Hl].
Qed.

Lemma columns_have_underscore (self : load_single_image) :
  forallb no_underscore [C_MD5_DIGEST; C_SCALING; C_FILE_NAME; C_PATH_NAME;
                         C_OBJECTS_FILE_NAME; C_OBJECTS_PATH_NAME] = true ->
  (forall name x, In x (get_object_measurement_columns name) ->
                  no_underscore (snd (fst x)) = false) ->
  forall x, In x (columns_of self) -> no_underscore (snd (fst x)) = false.
Proof.
  intros Hus Hg x Hx.
  cbn [forallb] in Hus. rewrite !andb_true_iff in Hus.
  destruct Hus as (H1 & H2 & H3 & H4 & H5 & H6 & _).
  unfold get_measurement_columns in Hx. apply in_flat_map in Hx.
  destruct Hx as [g [_ Hx]]. unfold group_columns in Hx.
  destruct (negb (file_wants_images g)).
  - apply in_app_or in Hx. destruct Hx as [Hx|Hx]; [exact (Hg _ _ Hx)|].
    destruct Hx as [<-|[<-|[]]]; cbn [fst snd]; unfold no_underscore;
      rewrite Measures.split_first_join by assumption; reflexivity.
  - destruct Hx as [<-|[<-|[<-|[<-|[]]]]]; cbn [fst snd]; unfold no_underscore;
      rewrite Measures.split_first_join by assumption; reflexivity.
Qed.

(** Every category that [get_categories] lists for the image has at least
    one measurement in [get_measurements(IMAGE, category)], provided the
    category names have no underscore and differ from [C_COUNT], the image
    and object choices differ, and every per-object column name has an
    underscore. *)
Theorem image_categories_have_measurements (self : load_single_image) (c : string) :
  forallb no_underscore [C_MD5_DIGEST; C_SCALING; C_FILE_NAME; C_PATH_NAME;
                         C_OBJECTS_FILE_NAME; C_OBJECTS_PATH_NAME] = true ->
  existsb (String.eqb C_COUNT) [C_FILE_NAME; C_MD5_DIGEST; C_PATH_NAME; C_SCALING;
                                C_OBJECTS_FILE_NAME; C_OBJECTS_PATH_NAME] = false ->
  String.eqb IO_OBJECTS IO_IMAGES = false ->
  (forall name x, In x (get_object_measurement_columns name) ->
                  no_underscore (snd (fst x)) = false) ->
  In c (categories_of self IMAGE) ->
  exists l, measurements_of self IMAGE c = Ok l /\ l <> [].
Proof.
  intros Hus Hcount Hio Hg Hin.
  pose proof (columns_have_underscore self Hus Hg) as Hall.
  cbn [existsb] in Hcount. rewrite !orb_false_iff in Hcount.
  destruct Hcount as (E1 & E2 & E3 & E4 & E5 & E6 & _).
  rewrite String.eqb_sym in E1, E2, E3, E4, E5, E6.
  cbn [forallb] in Hus. rewrite !andb_true_iff in Hus.
  destruct Hus as (U1 & U2 & U3 & U4 & U5 & U6 & _).
  unfold get_categories in Hin. rewrite String.eqb_refl in Hin.
  apply in_app_or in Hin. destruct Hin as [Hin|Hin].
  - destruct (existsb _ (file_settings self)) eqn:Eh; [|destruct Hin].
    apply existsb_exists in Eh. destruct Eh as [g [Hgin Hw]].
    change (file_wants_images g = true) in Hw.
    destruct Hin as [<-|[<-|[<-|[<-|[]]]]];
      (apply image_branch_nonempty; [assumption|exact Hall|]);
      [exists (IMAGE, join_us C_FILE_NAME (image_name g), COLTYPE_VARCHAR_FILE_NAME)
      |exists (IMAGE, join_us C_MD5_DIGEST (image_name g), COLTYPE_VARCHAR_MD5)
      |exists (IMAGE, join_us C_PATH_NAME (image_name g), COLTYPE_VARCHAR_PATH_NAME)
      |exists (IMAGE, join_us C_SCALING (image_name g), COLTYPE_FLOAT)];
      (split; [apply in_flat_map; exists g; split; [exact Hgin|]
                 |cbn [fst snd]; apply Measures.split_head_join; assumption]);
      unfold group_columns; rewrite Hw; cbn [negb];
      repeat first [solve [left; reflexivity] | right].
  - destruct (Nat.ltb 0 (length (object_names IO_OBJECTS self))) eqn:En; [|destruct Hin].
    unfold object_names in En |- *.
    destruct (filter _ (file_settings self)) as [|g rest] eqn:Ef; [discriminate En|].
    assert (Hgf : In g (filter (fun file_setting =>
                                  String.eqb (image_object_choice file_setting) IO_OBJECTS)
                               (file_settings self)))
      by (rewrite Ef; left; reflexivity).
    apply filter_In in Hgf. destruct Hgf as [Hgin Hgo].
    assert (Hw : file_wants_images g = false).
    { unfold file_wants_images. apply String.eqb_eq in Hgo. rewrite Hgo. exact Hio. }
    destruct Hin as [<-|[<-|[<-|[]]]].
    + apply image_branch_nonempty; [assumption|exact Hall|].
      exists (IMAGE, join_us C_OBJECTS_FILE_NAME (object_name g), COLTYPE_VARCHAR_FILE_NAME).
      split; [|cbn [fst snd]; apply Measures.split_head_join; assumption].
      apply in_flat_map. exists g. split; [exact Hgin|].
      unfold group_columns. rewrite Hw. cbn [negb].
      apply in_or_app. right. left. reflexivity.
    + apply image_branch_nonempty; [assumption|exact Hall|].
      exists (IMAGE, join_us C_OBJECTS_PATH_NAME (object_name g), COLTYPE_VARCHAR_PATH_NAME).
      split; [|cbn [fst snd]; apply Measures.split_head_join; assumption].
      apply in_flat_map. exists g. split; [exact Hgin|].
      unfold group_columns. rewrite Hw. cbn [negb].
      apply in_or_app. right. right. left. reflexivity.
    + unfold get_measurements. rewrite !String.eqb_refl.
      eexists. split; [reflexivity|]. unfold object_names. rewrite Ef. discriminate.
Qed.

(** For a name other than [IMAGE], [get_measurements] never fails, and it
    returns a non-empty list exactly for the categories that
    [get_categories] lists for that name. *)
Theorem object_categories_match_measurements (self : load_single_image)
    (oname c : string) :
  String.eqb oname IMAGE = false ->
  exists l, measurements_of self oname c = Ok l /\
            (l <> [] <-> In c (categories_of self oname)).
Proof.
  intros H. unfold get_measurements, get_categories. rewrite H.
  destruct (existsb (String.eqb oname) (object_names IO_OBJECTS self)).
  - eexists. split; [reflexivity|].
    destruct (String.eqb c C_NUMBER) eqn:En.
    + apply String.eqb_eq in En. subst c.
      split; [intros _; right; left; reflexivity|discriminate].
    + destruct (String.eqb c C_LOCATION) eqn:El.
      * apply String.eqb_eq in El. subst c.
        split; [intros _; left; reflexivity|discriminate].
      * split; [intros Hne; exfalso; apply Hne; reflexivity|].
        intros [E|[E|[]]]; subst c; rewrite String.eqb_refl in *; discriminate.
  - eexists. split; [reflexivity|].
    split; [intros Hne; exfalso; apply Hne; reflexivity|intros []].
Qed.

End Measurement_properties.

Lemma image_categories_have_measurements_witness :
  let get_object_measurement_columns := fun n : string =>
    [("Image", join_us "Count" n, "integer"); (n, "Location_Center_X", "float");
     (n, "Location_Center_Y", "float"); (n, "Number_Object_Number", "integer")] in
  let self := {| dir_choice := "Default Input Folder";
                 file_settings :=
                   [{| can_remove := false; file_name := "a.tif"; file_name_text := FILE_TEXT;
                       file_name_browsable := true; image_object_choice := IO_IMAGES;
                       image_name := "OrigBlue"; rescale := true; object_name := "Nuclei" |};
                    {| can_remove := true; file_name := "labels.tif"; file_name_text := FILE_TEXT;
                       file_name_browsable := true; image_object_choice := "Objects";
                       image_name := "OrigBlue"; rescale := true; object_name := "Cells" |}] |} in
  (forall name x, In x (get_object_measurement_columns name) ->
                  no_underscore (snd (fst x)) = false) /\
  In "ObjectsFileName"
     (get_categories "Image" "Objects" "FileName" "PathName" "MD5Digest" "Scaling"
        "ObjectsFileName" "ObjectsPathName" "Count" "Number" "Location" self "Image") /\
  exists l, get_measurements "Image" "Objects" "FileName" "PathName" "MD5Digest" "Scaling"
    "ObjectsFileName" "ObjectsPathName" "Count" "Number" "Location" "Object_Number"
    "Center_X" "Center_Y" "varchar(32)" "float" "varchar(128)" "varchar(256)"
    get_object_measurement_columns self "Image" "ObjectsFileName" = Ok l /\ l <> [].
Proof.
  intros gomc self.
  assert (Hg : forall name x, In x (gomc name) -> no_underscore (snd (fst x)) = false)
    by (intros name x Hx; destruct Hx as [<-|[<-|[<-|[<-|[]]]]]; reflexivity).
  assert (Hin : In "ObjectsFileName"
                   (get_categories "Image" "Objects" "FileName" "PathName" "MD5Digest"
                      "Scaling" "ObjectsFileName" "ObjectsPathName" "Count" "Number"
                      "Location" self "Image"))
    by (vm_compute; tauto).
  split; [exact Hg|split; [exact Hin|]].
  exact (image_categories_have_measurements "Image" "Objects" "FileName" "PathName"
           "MD5Digest" "Scaling" "ObjectsFileName" "ObjectsPathName" "Count" "Number"
           "Location" "Object_Number" "Center_X" "Center_Y" "varchar(32)" "float"
           "varchar(128)" "varchar(256)" gomc self "ObjectsFileName"
           eq_refl eq_refl eq_refl Hg Hin).
Defined.

Lemma object_categories_match_measurements_witness :
  let get_object_measurement_columns := fun n : string =>
    [("Image", join_us "Count" n, "integer"); (n, "Location_Center_X", "float")] in
  let self := {| dir_choice := "Default Input Folder";
                 file_settings :=
                   [{| can_remove := false; file_name := "labels.tif"; file_name_text := FILE_TEXT;
                       file_name_browsable := true; image_object_choice := "Objects";
                       image_name := "OrigBlue"; rescale := true; object_name := "Nuclei" |}] |} in
  String.eqb "Nuclei" "Image" = false /\
  exists l, get_measurements "Image" "Objects" "FileName" "PathName" "MD5Digest" "Scaling"
    "ObjectsFileName" "ObjectsPathName" "Count" "Number" "Location" "Object_Number"
    "Center_X" "Center_Y" "varchar(32)" "float" "varchar(128)" "varchar(256)"
    get_object_measurement_columns self "Nuclei" "Location" = Ok l /\
    (l <> [] <-> In "Location"
       (get_categories "Image" "Objects" "FileName" "PathName" "MD5Digest" "Scaling"
          "ObjectsFileName" "ObjectsPathName" "Count" "Number" "Location" self "Nuclei")).
Proof.
  intros gomc self. split; [reflexivity|].
  exact (object_categories_match_measurements "Image" "Objects" "FileName" "PathName"
           "MD5Digest" "Scaling" "ObjectsFileName" "ObjectsPathName" "Count" "Number"
           "Location" "Object_Number" "Center_X" "Center_Y" "varchar(32)" "float"
           "varchar(128)" "varchar(256)" gomc self "Nuclei" "Location" eq_refl).
Defined.

Lemma image_measurements_are_image_names_witness :
  let get_object_measurement_columns := fun n : string =>
    [("Image", join_us "Count" n, "integer"); (n, "Location_Center_X", "float");
     (n, "Location_Center_Y", "float"); (n, "Number_Object_Number", "integer")] in
  let self := {| dir_choice := "Default Input Folder";
                 file_settings :=
                   [{| can_remove := false; file_name := "a.tif"; file_name_text := FILE_TEXT;
                       file_name_browsable := true; image_object_choice := IO_IMAGES;
                       image_name := "Orig_Blue"; rescale := true; object_name := "Nuclei" |};
                    {| can_remove := true; file_name := "labels.tif"; file_name_text := FILE_TEXT;
                       file_name_browsable := true; image_object_choice := "Objects";
                       image_name := "OrigBlue"; rescale := true; object_name := "Nuclei" |}] |} in
  (forallb no_underscore ["MD5Digest"; "Scaling"; "FileName"; "PathName";
                          "ObjectsFileName"; "ObjectsPathName"] = true /\
   length (filter (fun k => String.eqb k "FileName")
                  ["MD5Digest"; "Scaling"; "FileName"; "PathName"]) = 1 /\
   existsb (String.eqb "FileName") ["ObjectsFileName"; "ObjectsPathName"; "Count"] = false /\
   (forall name, forallb (fun c => negb (String.eqb (split_head "_" (snd (fst c))) "FileName"))
                         (get_object_measurement_columns name) = true)) /\
  get_measurements "Image" "Objects" "FileName" "PathName" "MD5Digest" "Scaling"
    "ObjectsFileName" "ObjectsPathName" "Count" "Number" "Location" "Object_Number"
    "Center_X" "Center_Y" "varchar(32)" "float" "varchar(128)" "varchar(256)"
    get_object_measurement_columns self "Image" "FileName" = Ok ["Orig_Blue"].
Proof.
  intros gomc self.
  split; [split; [reflexivity|split; [reflexivity|split; [reflexivity|]]]|].
  - intros name. reflexivity.
  - exact (image_measurements_are_image_names "Image" "Objects" "FileName" "PathName"
             "MD5Digest" "Scaling" "ObjectsFileName" "ObjectsPathName" "Count" "Number"
             "Location" "Object_Number" "Center_X" "Center_Y" "varchar(32)" "float"
             "varchar(128)" "varchar(256)" gomc self "FileName"
             eq_refl eq_refl eq_refl (fun name => eq_refl)).
Defined.

Lemma image_measurements_ignore_column_object_witness :
  let get_object_measurement_columns := fun n : string =>
    [("Image", join_us "Count" n, "integer"); (n, "Location_Center_X", "float");
     (n, "Location_Center_Y", "float"); (n, "Number_Object_Number", "integer")] in
  let self := {| dir_choice := "Default Input Folder";
                 file_settings :=
                   [{| can_remove := false; file_name := "labels.tif"; file_name_text := FILE_TEXT;
                       file_name_browsable := true; image_object_choice := "Objects";
                       image_name := "OrigBlue"; rescale := true; object_name := "Nuclei" |}] |} in
  (no_underscore "Location" = true /\ String.eqb "Location" "Count" = false /\
   In ("Nuclei", join_us "Location" "Center_X", "float")
      (get_measurement_columns "Image" "FileName" "PathName" "MD5Digest" "Scaling"
         "ObjectsFileName" "ObjectsPathName" "varchar(32)" "float" "varchar(128)"
         "varchar(256)" get_object_measurement_columns self) /\
   get_measurements "Image" "Objects" "FileName" "PathName" "MD5Digest" "Scaling"
     "ObjectsFileName" "ObjectsPathName" "Count" "Number" "Location" "Object_Number"
     "Center_X" "Center_Y" "varchar(32)" "float" "varchar(128)" "varchar(256)"
     get_object_measurement_columns self "Image" "Location" = Ok ["Center_X"; "Center_Y"]) /\
  In "Center_X" ["Center_X"; "Center_Y"].
Proof.
  intros gomc self.
  assert (Hin : In ("Nuclei", join_us "Location" "Center_X", "float")
                   (get_measurement_columns "Image" "FileName" "PathName" "MD5Digest"
                      "Scaling" "ObjectsFileName" "ObjectsPathName" "varchar(32)" "float"
                      "varchar(128)" "varchar(256)" gomc self))
    by (right; left; reflexivity).
  split; [split; [reflexivity|split; [reflexivity|split; [exact Hin|reflexivity]]]|].
  exact (image_measurements_ignore_column_object "Image" "Objects" "FileName" "PathName"
           "MD5Digest" "Scaling" "ObjectsFileName" "ObjectsPathName" "Count" "Number"
           "Location" "Object_Number" "Center_X" "Center_Y" "varchar(32)" "float"
           "varchar(128)" "varchar(256)" gomc self "Location" "Nuclei" "Center_X" "float"
           ["Center_X"; "Center_Y"] eq_refl eq_refl Hin eq_refl).
Defined.

(** ** More on [upgrade_settings] *)

Module Caller.

Lemma step_legacy_state v fm h :
  snd (step_legacy v fm h) = h /\
  (forall b rev fm', fst (step_legacy v fm h) = Ok (b, rev, fm') ->
     (fm && (v =? 4)%Z = true -> exists l, b = Fresh l /\ rev = 1%Z /\ fm' = false) /\
     (fm && (v =? 4)%Z = false -> b = Caller /\ rev = v /\ fm' = fm)).
Proof.
  unfold step_legacy, mbind, mret, deref, lift.
  destruct (fm && (v =? 4)%Z) eqn:E.
  - destruct (rewrite_legacy h) as [l|e]; cbn; (split; [reflexivity|]);
      intros b rev fm' H; [|discriminate].
    injection H as <- <- <-. split; [eauto|discriminate].
  - cbn. split; [reflexivity|]. intros b rev fm' H. injection H as <- <- <-.
    split; [discriminate|auto].
Qed.

Lemma step_1_2_state b rev fm h :
  snd (step_1_2 b rev fm h) = h /\
  (forall b' rev', fst (step_1_2 b rev fm h) = Ok (b', rev') ->
     ((rev =? 1)%Z && negb fm = true -> exists l, b' = Fresh l /\ rev' = 2%Z) /\
     ((rev =? 1)%Z && negb fm = false -> b' = b /\ rev' = rev)).
Proof.
  unfold step_1_2, mbind, mret, deref, lift.
  destruct ((rev =? 1)%Z && negb fm) eqn:E.
  - destruct (rewrite_1_2 (match b with Caller => h | Fresh l => l end)) as [l|e];
      cbn; (split; [reflexivity|]); intros b' rev' H; [|discriminate].
    injection H as <- <-. split; [eauto|discriminate].
  - cbn. split; [reflexivity|]. intros b' rev' H. injection H as <- <-.
    split; [discriminate|auto].
Qed.

Lemma standardize_dir_state b h :
  (snd (standardize_dir b h) = h) \/
  (b = Caller /\ exists d t, h = VStr d :: t /\
                             snd (standardize_dir b h) = VStr (upgrade_setting d) :: t).
Proof.
  unfold standardize_dir, mbind, deref, lift, assign_item.
  destruct b as [|l].
  - destruct h as [|[d|it] t]; cbn; auto. right. split; [reflexivity|].
    exists d, t. split; reflexivity.
  - destruct l as [|[d|it] t]; cbn; auto.
Qed.

Lemma standardize_dir_fresh l h : snd (standardize_dir (Fresh l) h) = h.
Proof.
  destruct (standardize_dir_state (Fresh l) h) as [H|[H _]]; [exact H|discriminate].
Qed.

(** The caller's list after the call is what [standardize_dir] left. *)
Lemma caller_after_eq r v fm :
  caller_after r v fm =
  match fst (step_legacy v fm r) with
  | Ok (b, rev, fm1) =>
      match fst (step_1_2 b rev fm1 r) with
      | Ok (b2, _) => snd (standardize_dir b2 r)
      | Err _ => r
      end
  | Err _ => r
  end.
Proof.
  unfold caller_after, upgrade_settings. unfold mbind at 1.
  destruct (step_legacy_state v fm r) as [Hs _].
  destruct (step_legacy v fm r) as [[[[b rev] fm1]|e] h1]; cbn [fst snd] in Hs |- *;
    subst h1; [|reflexivity].
  unfold mbind at 1.
  destruct (step_1_2_state b rev fm1 r) as [Hs _].
  destruct (step_1_2 b rev fm1 r) as [[[b2 rev2]|e] h2]; cbn [fst snd] in Hs |- *;
    subst h2; [|reflexivity].
  unfold mbind at 1.
  destruct (standardize_dir b2 r) as [[b3|e] h3]; cbn [fst snd]; [|reflexivity].
  unfold mbind, deref, lift, mret.
  destruct (step_2_3 _ rev2 fm1) as [[sv rev4]|e]; cbn [fst snd]; [|reflexivity].
  destruct (step_3_4 sv rev4 fm1) as [sv5 rev5].
  destruct (step_4_5 sv5 rev5 fm1) as [sv6 rev6]. reflexivity.
Qed.

End Caller.

(** [upgrade_settings] writes at most one field of the caller's list: after
    the call the caller's list is either unchanged or has its first field,
    a string, replaced by its standardized form; its length and the other
    fields never change. *)
Theorem upgrade_settings_writes_first_field_only (r : list value) (v : Z) (fm : bool) :
  caller_after r v fm = r \/
  exists d t, r = VStr d :: t /\ caller_after r v fm = VStr (upgrade_setting d) :: t.
Proof.
  rewrite Caller.caller_after_eq.
  destruct (fst (step_legacy v fm r)) as [[[b rev] fm1]|e]; [|left; reflexivity].
  destruct (fst (step_1_2 b rev fm1 r)) as [[b2 rev2]|e]; [|left; reflexivity].
  destruct (Caller.standardize_dir_state b2 r) as [H|(_ & d & t & Hr & H)].
  - left. exact H.
  - right. exists d, t. auto.
Qed.

(** When the legacy block or the 1->2 rewrite runs (a Matlab record at
    revision 4, or a native record at revision 1), [setting_values] names a
    new list by line 441, and the caller's list is left unchanged. *)
Theorem rebuilt_record_leaves_caller_list (r : list value) (v : Z) (fm : bool) :
  (fm = true /\ v = 4%Z) \/ (fm = false /\ v = 1%Z) ->
  caller_after r v fm = r.
Proof.
  intros Hv. rewrite Caller.caller_after_eq.
  destruct (Caller.step_legacy_state v fm r) as [_ Hl].
  destruct (fst (step_legacy v fm r)) as [[[b rev] fm1]|e]; [|reflexivity].
  destruct (Hl b rev fm1 eq_refl) as [Hleg Hnat].
  assert (Hb : (rev =? 1)%Z && negb fm1 = true).
  { destruct Hv as [[-> ->] | [-> ->]].
    - destruct (Hleg eq_refl) as (l & _ & -> & ->). reflexivity.
    - destruct (Hnat eq_refl) as (_ & -> & ->). reflexivity. }
  destruct (Caller.step_1_2_state b rev fm1 r) as [_ H12].
  destruct (fst (step_1_2 b rev fm1 r)) as [[b2 rev2]|e]; [|reflexivity].
  destruct (proj1 (H12 b2 rev2 eq_refl) Hb) as (l & -> & _).
  apply Caller.standardize_dir_fresh.
Qed.

Lemma rebuilt_record_leaves_caller_list_witness :
  ((false = true /\ 1%Z = 4%Z) \/ (false = false /\ 1%Z = 1%Z)) /\
  caller_after (strs ["Default image folder"; "sub"; "img.tif"; "OrigBlue"]) 1 false =
  strs ["Default image folder"; "sub"; "img.tif"; "OrigBlue"].
Proof.
  split; [right; split; reflexivity|].
  apply rebuilt_record_leaves_caller_list. right. split; reflexivity.
Defined.

(** An empty settings record always raises [IndexError], whatever the
    revision and the Matlab flag: every path reads [setting_values[0]] or
    [setting_values[1]]. *)
Theorem empty_record_raises (v : Z) (fm : bool) :
  migrate [] v fm = Err IndexError.
Proof.
  unfold migrate, upgrade_settings, step_legacy, step_1_2, standardize_dir,
    mbind, mret, lift, deref, assign_item.
  destruct (fm && (v =? 4)%Z); [reflexivity|].
  destruct ((v =? 1)%Z && negb fm); reflexivity.
Qed.

(** Every (revision, from_matlab) pair that selects a rewrite ends, when the
    migration succeeds, at revision 5 with the Matlab flag cleared. *)
Theorem rewrite_path_reaches_revision_5 (r : list value) (v : Z) (fm : bool)
    (sv : list value) (v' : Z) (fm' : bool) :
  has_rewrite v fm = true ->
  fst (upgrade_settings v fm r) = Ok (sv, v', fm') ->
  v' = 5%Z /\ fm' = false.
Proof.
  intros Hr H. unfold upgrade_settings in H. unfold mbind at 1 in H.
  destruct (Caller.step_legacy_state v fm r) as [Hs1 Hl].
  destruct (step_legacy v fm r) as [[[[b rev] fm1]|e] h1]; cbn [fst snd] in Hs1, Hl;
    [|discriminate H].
  subst h1.
  assert (Hrev : fm1 = false /\ (1 <= rev <= 4)%Z).
  { destruct (Hl b rev fm1 eq_refl) as [Hleg Hnat].
    destruct (fm && (v =? 4)%Z) eqn:E.
    - destruct (Hleg eq_refl) as (_ & _ & -> & ->). split; [reflexivity|lia].
    - destruct (Hnat eq_refl) as (-> & -> & ->). unfold has_rewrite in Hr.
      destruct fm; [cbn in E; congruence|].
      split; [reflexivity|].
      apply andb_true_iff in Hr. destruct Hr as [Ha Hb].
      apply Z.leb_le in Ha, Hb. lia. }
  destruct Hrev as [-> Hrev].
  unfold mbind at 1 in H.
  destruct (Caller.step_1_2_state b rev false r) as [Hs2 H12].
  destruct (step_1_2 b rev false r) as [[[b2 rev2]|e] h2]; cbn [fst snd] in Hs2, H12;
    [|discriminate H].
  subst h2.
  assert (Hrev2 : (2 <= rev2 <= 4)%Z).
  { destruct (H12 b2 rev2 eq_refl) as [Ha Hb].
    destruct ((rev =? 1)%Z && negb false) eqn:E.
    - destruct (Ha eq_refl) as (_ & _ & ->). lia.
    - destruct (Hb eq_refl) as (_ & ->). rewrite andb_true_r in E.
      apply Z.eqb_neq in E. lia. }
  unfold mbind at 1 in H.
  destruct (standardize_dir b2 r) as [[b3|e] h3]; [|discriminate H].
  unfold mbind, deref, lift, mret in H.
  destruct (step_2_3 (match b3 with Caller => h3 | Fresh l => l end) rev2 false)
    as [[sv4 rev4]|e] eqn:E23; [|discriminate H].
  assert (Hrev4 : rev4 = 3%Z \/ rev4 = 4%Z).
  { unfold step_2_3 in E23. destruct ((rev2 =? 2)%Z && negb false) eqn:E.
    - destruct (rewrite_2_3 _); cbn in E23; [|discriminate].
      injection E23 as _ <-. auto.
    - injection E23 as _ <-. rewrite andb_true_r in E. apply Z.eqb_neq in E. lia. }
  destruct Hrev4 as [-> | ->]; cbn in H; injection H as _ <- <-; auto.
Qed.

Lemma rewrite_path_reaches_revision_5_witness :
  has_rewrite 4 true = true /\
  fst (upgrade_settings 4 true
         (strs [""; "."; "f1"; "n1"; "f2"; "n2"; "f3"; "n3"; "f4"; DO_NOT_USE])) =
    Ok (strs ["Default Input Folder|."; "f1"; IO_IMAGES; "n1"; YES; "Nuclei";
              "f2"; IO_IMAGES; "n2"; YES; "Nuclei"; "f3"; IO_IMAGES; "n3"; YES; "Nuclei"],
        5%Z, false) /\
  5%Z = 5%Z /\ false = false.
Proof.
  split; [reflexivity|]. split; [reflexivity|].
  exact (rewrite_path_reaches_revision_5
           (strs [""; "."; "f1"; "n1"; "f2"; "n2"; "f3"; "n3"; "f4"; DO_NOT_USE]) 4 true
           _ _ _ eq_refl eq_refl).
Defined.

Module Odd.

Lemma loop_3_4_orphan (es : list (value * value)) (pre : list value) (x : value) :
  flat_map (fun i => py_slice (pre ++ concat (map pair_fields es) ++ [x]) i (i + 2)
                     ++ [VStr YES])
           (range_aux (S (length es)) (length pre) 2) =
  concat (map (fun '(a, b) => [a; b; VStr YES]) es) ++ [x; VStr YES].
Proof.
  revert pre; induction es as [|[a b] es IH]; intros pre.
  - cbn [length range_aux flat_map map concat app]. unfold py_slice.
    rewrite Loops.skipn_length_app.
    replace (length pre + 2 - length pre) with 2 by lia. reflexivity.
  - change (range_aux (S (length ((a, b) :: es))) (length pre) 2)
      with (length pre :: range_aux (S (length es)) (length pre + 2) 2).
    cbn [flat_map map concat].
    replace (pre ++ (pair_fields (a, b) ++ concat (map pair_fields es)) ++ [x])
      with ((pre ++ [a; b]) ++ concat (map pair_fields es) ++ [x])
      by (rewrite <- !app_assoc; reflexivity).
    replace (length pre + 2) with (length (pre ++ [a; b]))
      by (rewrite length_app; reflexivity).
    rewrite IH. unfold py_slice.
    rewrite <- (app_assoc pre [a; b]), Loops.skipn_length_app, length_app.
    replace (length pre + length [a; b] - length pre) with 2 by (cbn; lia).
    reflexivity.
Qed.

Lemma loop_4_5_orphan (es : list (value * value * value)) (pre : list value) (x y : value) :
  flat_map (fun i => [nth i (pre ++ concat (map triple_fields es) ++ [x; y]) (VStr "")] ++
                     [VStr IO_IMAGES] ++
                     py_slice (pre ++ concat (map triple_fields es) ++ [x; y]) (i + 1)
                              (i + S_FILE_SETTINGS_COUNT_V4) ++
                     [VStr "Nuclei"])
           (range_aux (S (length es)) (length pre) S_FILE_SETTINGS_COUNT_V4) =
  concat (map (fun '(f, n, r) => [f; VStr IO_IMAGES; n; r; VStr "Nuclei"]) es) ++
  [x; VStr IO_IMAGES; y; VStr "Nuclei"].
Proof.
  revert pre; induction es as [|[[f n] r] es IH]; intros pre.
  - cbn [length range_aux flat_map map concat app]. unfold py_slice.
    rewrite Loops.nth_length_app, Loops.skipn_plus_app.
    unfold S_FILE_SETTINGS_COUNT_V4.
    replace (length pre + 3 - (length pre + 1)) with 2 by lia. reflexivity.
  - change (range_aux (S (length ((f, n, r) :: es))) (length pre) S_FILE_SETTINGS_COUNT_V4)
      with (length pre ::
            range_aux (S (length es)) (length pre + S_FILE_SETTINGS_COUNT_V4)
                      S_FILE_SETTINGS_COUNT_V4).
    cbn [flat_map map concat].
    replace (pre ++ (triple_fields (f, n, r) ++ concat (map triple_fields es)) ++ [x; y])
      with ((pre ++ [f; n; r]) ++ concat (map triple_fields es) ++ [x; y])
      by (rewrite <- !app_assoc; reflexivity).
    replace (length pre + S_FILE_SETTINGS_COUNT_V4) with (length (pre ++ [f; n; r]))
      by (rewrite length_app; reflexivity).
    rewrite IH. unfold py_slice. rewrite <- (app_assoc pre [f; n; r]).
    rewrite Loops.skipn_plus_app, length_app. cbn [app]. rewrite Loops.nth_length_app.
    replace (length pre + length [f; n; r] - (length pre + 1)) with 2 by (cbn; lia).
    reflexivity.
Qed.

Lemma rewrite_3_4_orphan (d : value) (es : list (value * value)) (x : value) :
  rewrite_3_4 (d :: concat (map pair_fields es) ++ [x]) =
  d :: concat (map (fun '(a, b) => [a; b; VStr YES]) es) ++ [x; VStr YES].
Proof.
  unfold rewrite_3_4. cbn [length].
  rewrite length_app, Loops.length_concat_pairs. cbn [length].
  replace (S (2 * length es + 1) - 1 + 2 - 1) with (S (length es) * 2) by lia.
  unfold py_range.
  replace (S (2 * length es + 1) - 1 + 2 - 1) with (S (length es) * 2) by lia.
  rewrite Nat.div_mul by lia.
  exact (f_equal (cons d) (loop_3_4_orphan es [d] x)).
Qed.

Lemma rewrite_4_5_orphan (d : value) (es : list (value * value * value)) (x y : value) :
  rewrite_4_5 (d :: concat (map triple_fields es) ++ [x; y]) =
  d :: concat (map (fun '(f, n, r) => [f; VStr IO_IMAGES; n; r; VStr "Nuclei"]) es) ++
  [x; VStr IO_IMAGES; y; VStr "Nuclei"].
Proof.
  unfold rewrite_4_5. cbn [length].
  rewrite length_app, Loops.length_concat_triples. cbn [length].
  unfold py_range.
  replace (S (3 * length es + 2) - 1 + S_FILE_SETTINGS_COUNT_V4 - 1)
    with (S (length es) * S_FILE_SETTINGS_COUNT_V4 + 1)
    by (unfold S_FILE_SETTINGS_COUNT_V4; lia).
  rewrite Nat.div_add_l by (unfold S_FILE_SETTINGS_COUNT_V4; lia).
  rewrite (Nat.div_small 1) by (unfold S_FILE_SETTINGS_COUNT_V4; lia).
  rewrite Nat.add_0_r.
  exact (f_equal (cons d) (loop_4_5_orphan es [d] x y)).
Qed.

Lemma fives_of_pairs (es : list (value * value)) :
  concat (map (fun '(f, n, r) => [f; VStr IO_IMAGES; n; r; VStr "Nuclei"])
              (map (fun '(a, b) => (a, b, VStr YES)) es)) =
  concat (map (fun '(f, n) => [f; VStr IO_IMAGES; n; VStr YES; VStr "Nuclei"]) es).
Proof. rewrite map_map. f_equal. apply map_ext. intros [a b]. reflexivity. Qed.

End Odd.

(** A native revision-3 record of (filename, image name) entries migrates
    without error to revision 5: the directory field is standardized and
    every entry (f, n) becomes (f, "Images", n, "Yes", "Nuclei"). *)
Theorem revision_3_entries_migrate (d : string) (es : list (value * value)) :
  migrate (VStr d :: concat (map pair_fields es)) 3 false =
  Ok (VStr (upgrade_setting d) ::
      concat (map (fun '(f, n) => [f; VStr IO_IMAGES; n; VStr YES; VStr "Nuclei"]) es)).
Proof.
  rewrite Runs.migrate_at_3, Loops.rewrite_3_4_aligned, Loops.pairs_yes_as_triples,
    Loops.rewrite_4_5_aligned, Odd.fives_of_pairs.
  reflexivity.
Qed.

(** A native revision-3 record whose tail has odd length migrates without
    error: the unpaired last field becomes a four-field entry in which the
    rescale value "Yes" stands in the image-name slot. *)
Theorem odd_revision_3_tail_migrates (d : string) (es : list (value * value)) (x : value) :
  migrate (VStr d :: concat (map pair_fields es) ++ [x]) 3 false =
  Ok (VStr (upgrade_setting d) ::
      concat (map (fun '(f, n) => [f; VStr IO_IMAGES; n; VStr YES; VStr "Nuclei"]) es) ++
      [x; VStr IO_IMAGES; VStr YES; VStr "Nuclei"]).
Proof.
  rewrite Runs.migrate_at_3, Odd.rewrite_3_4_orphan, Loops.pairs_yes_as_triples,
    Odd.rewrite_4_5_orphan, Odd.fives_of_pairs.
  reflexivity.
Qed.
